(** * Google-Keep-to-Joplin: convert_keep_to_markdown.py

    A shallow embedding of the converter script and the properties of its
    filename sanitiser, title extraction, checklist normalisation, per-file
    conversion and batch loop.

    Python strings are sequences of Unicode code points: [pystr] is a list
    of code points, and [py] reads a literal.  The document tree follows
    BeautifulSoup's object model (tags, strings, comments); the in-place
    replacement of list items is modelled on a store of attached and
    detached subtrees.  The renderer (markdownify), the HTML parser and the
    file system are parameters of the development. *)

From Stdlib Require Import Ascii String.
From stdpp Require Import base numbers option list gmap.

Set Default Proof Using "Type".
Local Open Scope list_scope.

(** ** Python strings *)

Module PyStr.

Definition char := N.
Definition pystr := list N.

(** A string literal of the source. *)
Definition py (s : string) : pystr := map N_of_ascii (list_ascii_of_string s).

Definition chr (a : ascii) : char := N_of_ascii a.

Definition in_range (lo hi c : N) : bool := ((lo <=? c) && (c <=? hi))%N.

(** The characters [str.strip()] removes: CPython's [Py_UNICODE_ISSPACE]. *)
Definition isspace (c : char) : bool :=
  (in_range 9 13 c || in_range 28 32 c || (c =? 133) || (c =? 160)
   || (c =? 5760) || in_range 8192 8202 c || (c =? 8232) || (c =? 8233)
   || (c =? 8239) || (c =? 8287) || (c =? 12288))%N.

(** [s.lstrip(...)]: drop the longest prefix of characters satisfying [p]. *)
Fixpoint lstrip (p : char -> bool) (s : pystr) : pystr :=
  match s with
  | [] => []
  | c :: s' => if p c then lstrip p s' else s
  end.

Definition rstrip (p : char -> bool) (s : pystr) : pystr :=
  reverse (lstrip p (reverse s)).

(** [s.strip()] with no argument removes white space, [s.strip(chars)]
    removes the characters of [chars]; both work on the two ends. *)
Definition strip_with (p : char -> bool) (s : pystr) : pystr :=
  rstrip p (lstrip p s).

Definition strip (s : pystr) : pystr := strip_with isspace s.

Definition strip_chars (chars : pystr) (s : pystr) : pystr :=
  strip_with (fun c => existsb (N.eqb c) chars) s.

(** [s.replace(old, new)] for one-character [old] and [new]. *)
Definition replace (old new : char) (s : pystr) : pystr :=
  map (fun c => if (c =? old)%N then new else c) s.

Fixpoint startswith (pre s : pystr) : bool :=
  match pre, s with
  | [], _ => true
  | _ :: _, [] => false
  | a :: pre', b :: s' => (a =? b)%N && startswith pre' s'
  end.

Definition endswith (suf s : pystr) : bool :=
  startswith (reverse suf) (reverse s).

Definition str_eqb (a b : pystr) : bool := bool_decide (a = b).

End PyStr.
Import PyStr.

(** ** sanitize_filename (lines 9-26) *)

(** The nine characters of the regular expression's class: backslash,
    slash, star, question mark, colon, double quote, less-than,
    greater-than and bar. *)
Definition invalid_chars : pystr :=
  [92; 47; 42; 63; 58; 34; 60; 62; 124]%N.

Definition is_invalid (c : char) : bool := existsb (N.eqb c) invalid_chars.

(** [re.sub] with that class and the empty replacement: every character of
    the class is deleted. *)
Definition re_sub_invalid (filename : pystr) : pystr :=
  List.filter (fun c => negb (is_invalid c)) filename.

Definition is_dot (c : char) : bool := (c =? 46)%N.

Definition max_len : nat := 200.

Definition sanitize_filename (filename : pystr) : pystr :=
  let sanitized := re_sub_invalid filename in
  let sanitized := replace (chr ":") (chr "_") sanitized in
  let sanitized := replace (chr "+") (chr "_") sanitized in
  let sanitized := strip_chars (py ".") (strip sanitized) in
  let sanitized :=
    if bool_decide (sanitized = []) || forallb is_dot sanitized
    then py "Untitled Note" else sanitized in
  if bool_decide (max_len < length sanitized) then take max_len sanitized
  else sanitized.

(** *** Auxiliary views of the sanitiser and of its results *)

(** The filename before the fallback to the literal and the truncation. *)
Definition trimmed (filename : pystr) : pystr :=
  strip_chars (py ".")
    (strip (replace (chr "+") (chr "_")
              (replace (chr ":") (chr "_") (re_sub_invalid filename)))).

(** The filename after the fallback, before the truncation. *)
Definition named (filename : pystr) : pystr :=
  if bool_decide (trimmed filename = []) || forallb is_dot (trimmed filename)
  then py "Untitled Note" else trimmed filename.

Definition clean_char (c : char) : Prop :=
  (c ∉ invalid_chars) /\ (c <> chr "+").


(** No character satisfying [p] at either end. *)
Definition ends_free (p : char -> bool) (x : pystr) : Prop :=
  (forall c, head x = Some c -> p c = false)
  /\ (forall c, last x = Some c -> p c = false).

Record sanitized_form (x : pystr) : Prop := {
  sf_nonempty : x <> [];
  sf_length : length x <= max_len;
  sf_clean : forall c, c ∈ x -> clean_char c;
  sf_space : ends_free isspace x;
  sf_dot : ends_free is_dot x
}.


(** The same as a test. *)
Definition ends_free_b (p : char -> bool) (x : pystr) : bool :=
  negb (from_option p false (head x)) && negb (from_option p false (last x)).

Definition is_sanitized_form (x : pystr) : bool :=
  negb (bool_decide (x = []))
  && bool_decide (length x <= max_len)
  && forallb (fun c => negb (is_invalid c) && negb (c =? chr "+")%N) x
  && ends_free_b isspace x
  && ends_free_b is_dot x.

(** ** The parsed document (BeautifulSoup objects) *)

(** A page element is a string, a comment or a tag with its attributes and
    contents.  The attributes are the tag's dictionary, kept as an
    association list read at its first binding of a name. *)
#[warnings="-register-all"]
Inductive node : Type :=
| NavigableString (s : pystr)
| Comment (s : pystr)
| Tag (name : pystr) (attrs : list (pystr * pystr)) (contents : list node).

(** A position below a node: the indices into successive [contents]. *)
Definition path := list nat.

Definition get_attr (k : pystr) (attrs : list (pystr * pystr)) : option pystr :=
  snd <$> List.find (fun kv => str_eqb (fst kv) k) attrs.

(** [tag.has_attr(k)] *)
Definition has_attr (k : pystr) (t : node) : bool :=
  match t with
  | Tag _ attrs _ => bool_decide (is_Some (get_attr k attrs))
  | _ => false
  end.

Definition under (i : nat) (qn : path * node) : path * node :=
  (i :: fst qn, snd qn).

(** [tag.descendants]: the elements below a tag in document order, each with
    its position. *)
Fixpoint descendants (t : node) : list (path * node) :=
  match t with
  | Tag _ _ cs =>
      (fix children (i : nat) (cs : list node) {struct cs} : list (path * node) :=
         match cs with
         | [] => []
         | c :: cs' =>
             ([i], c) :: (map (under i) (descendants c) ++ children (S i) cs')
         end) 0 cs
  | _ => []
  end.

Fixpoint children_from (i : nat) (cs : list node) : list (path * node) :=
  match cs with
  | [] => []
  | c :: cs' => ([i], c) :: (map (under i) (descendants c) ++ children_from (S i) cs')
  end.

Fixpoint lookup_path (q : path) (t : node) : option node :=
  match q with
  | [] => Some t
  | i :: q' =>
      match t with
      | Tag _ _ cs =>
          match cs !! i with
          | Some c => lookup_path q' c
          | None => None
          end
      | _ => None
      end
  end.

(** The tree with the element at [q] exchanged for [new]. *)
Fixpoint replace_at (q : path) (new : node) (t : node) : node :=
  match q with
  | [] => new
  | i :: q' =>
      match t with
      | Tag n a cs => Tag n a (alter (replace_at q' new) i cs)
      | _ => t
      end
  end.

Definition is_tag (name : pystr) (t : node) : bool :=
  match t with
  | Tag n _ _ => str_eqb n name
  | _ => false
  end.

(** [str.split()]: the maximal runs of characters that are not white space. *)
Fixpoint split_from (cur : pystr) (s : pystr) : list pystr :=
  match s with
  | [] => if cur is [] then [] else [reverse cur]
  | c :: s' =>
      if isspace c
      then (if cur is [] then split_from [] s' else reverse cur :: split_from [] s')
      else split_from (c :: cur) s'
  end.

Definition str_split (s : pystr) : list pystr := split_from [] s.

(** The keyword [class_=c] of a search: one of the tag's classes is [c]. *)
Definition has_class (c : pystr) (t : node) : bool :=
  match t with
  | Tag _ attrs _ =>
      match get_attr (py "class") attrs with
      | Some v => existsb (str_eqb c) (str_split v)
      | None => false
      end
  | _ => false
  end.

(** The keyword [type='checkbox'] of a search. *)
Definition has_type_checkbox (t : node) : bool :=
  match t with
  | Tag _ attrs _ => bool_decide (get_attr (py "type") attrs = Some (py "checkbox"))
  | _ => false
  end.

(** [tag.find(...)]: the first descendant that matches, with its position;
    [tag.find_all(...)]: the positions of all of them, in document order. *)
Definition find_first (p : node -> bool) (t : node) : option (path * node) :=
  List.find (fun qn => p (snd qn)) (descendants t).

Definition find_all (p : node -> bool) (t : node) : list path :=
  map fst (List.filter (fun qn => p (snd qn)) (descendants t)).

(** [soup.find('div', class_=c)] *)
Definition find_div (c : pystr) (soup : node) : option node :=
  snd <$> find_first (fun t => is_tag (py "div") t && has_class c t) soup.

(** [li.find('input', type='checkbox')] *)
Definition find_checkbox (li : node) : option (path * node) :=
  find_first (fun t => is_tag (py "input") t && has_type_checkbox t) li.

(** [q = parent ++ [i]] *)
Definition split_last (q : path) : option (path * nat) :=
  match reverse q with
  | [] => None
  | i :: rp => Some (reverse rp, i)
  end.

(** [elem.find_next_sibling(name)] for the element at [q] below [root]: the
    first tag of that name among the later entries of its parent's contents. *)
Definition find_next_sibling (name : pystr) (root : node) (q : path) : option node :=
  match split_last q with
  | Some (parent, i) =>
      match lookup_path parent root with
      | Some (Tag _ _ cs) => List.find (is_tag name) (drop (S i) cs)
      | _ => None
      end
  | None => None
  end.

(** [tag.get_text(strip=True)]: the strings below the tag (comments are not
    among them), each stripped, the empty ones dropped, joined without a
    separator. *)
Definition strings_of (t : node) : list pystr :=
  omap (fun qn => match snd qn with NavigableString s => Some s | _ => None end)
       (descendants t).

Definition get_text_strip (t : node) : pystr :=
  concat (List.filter (fun s => negb (bool_decide (s = []))) (map strip (strings_of t))).

(** *** The objects the loop holds, and replacement in place

    [li.replace_with(new_tag)] changes the tree that holds [li]: [new_tag]
    takes its place in the parent's contents, and [li], with everything below
    it, becomes the root of a tree of its own.  One element replaces one, so
    positions never shift and an element is named by its position in the
    content container as it was parsed.  The store lists the trees, each
    with the position its root came from, the most recently detached first;
    the container itself is the tree that came from []. *)
Definition store := list (path * node).

Fixpoint is_prefix (r q : path) : bool :=
  match r, q with
  | [], _ => true
  | _ :: _, [] => false
  | i :: r', j :: q' => Nat.eqb i j && is_prefix r' q'
  end.

(** The tree that holds the element [q] now. *)
Definition holder (q : path) (st : store) : option (path * node) :=
  List.find (fun rt => is_prefix (fst rt) q) st.

Definition deref (q : path) (st : store) : option node :=
  match holder q st with
  | Some (r, t) => lookup_path (drop (length r) q) t
  | None => None
  end.

Fixpoint replace_in_holder (q : path) (new : node) (st : store) : store :=
  match st with
  | [] => []
  | (r, t) :: st' =>
      if is_prefix r q then (r, replace_at (drop (length r) q) new t) :: st'
      else (r, t) :: replace_in_holder q new st'
  end.

(** The content container in its present state. *)
Definition content_of (st : store) : option node := deref [] st.

(** Exceptions: [FileNotFoundError] is an [OSError], and every class here is
    an [Exception]. *)
Inductive exn : Type :=
| FileNotFoundError
| OSError (name : string)
| Exception (name : string).

Definition is_OSError (e : exn) : bool :=
  match e with
  | FileNotFoundError | OSError _ => true
  | Exception _ => false
  end.

(** [li.replace_with(new_tag)]: an element without a parent cannot be
    replaced (bs4 raises [ValueError]). *)
Definition replace_with (q : path) (new : node) (st : store) : exn + store :=
  match holder q st with
  | Some (r, t) =>
      match drop (length r) q with
      | [] => inl (Exception "ValueError")
      | rel =>
          match lookup_path rel t with
          | Some old => inr ((q, old) :: replace_in_holder q new st)
          | None => inl (Exception "ValueError")
          end
      end
  | None => inl (Exception "ValueError")
  end.

(** [soup.new_tag('p')] with its [string] set. *)
Definition new_paragraph (s : pystr) : node := Tag (py "p") [] [NavigableString s].

(** The text of the replacement for a list item whose first check box sits at
    [cq] below it. *)
Definition checkbox_text (li : node) (cq : path) (checkbox : node) : pystr :=
  let text_span := find_next_sibling (py "span") li cq in
  let text := match text_span with
              | Some span => get_text_strip span
              | None => []
              end in
  if has_attr (py "checked") checkbox then py "- [x] " ++ text
  else py "- [ ] " ++ text.

(** The body of the loop over [content_tag.find_all('li')] (lines 67-78). *)
Definition handle_li (q : path) (st : store) : exn + store :=
  match deref q st with
  | Some li =>
      match find_checkbox li with
      | Some (cq, checkbox) =>
          replace_with q (new_paragraph (checkbox_text li cq checkbox)) st
      | None => inr st
      end
  | None => inl (Exception "ValueError")
  end.

(** The loop: the first exception ends it, with the store as it is then. *)
Fixpoint handle_all (lis : list path) (st : store) : (option exn) * store :=
  match lis with
  | [] => (None, st)
  | q :: lis' =>
      match handle_li q st with
      | inr st' => handle_all lis' st'
      | inl e => (Some e, st)
      end
  end.

(** Lines 66-78 on a content container. *)
Definition normalize (content_tag : node) : (option exn) * store :=
  handle_all (find_all (is_tag (py "li")) content_tag) [([], content_tag)].

(** ** os.path (POSIX flavour) *)

Definition sep : char := chr "/".

(** The longest prefix without a character satisfying [p]. *)
Fixpoint take_until (p : char -> bool) (s : pystr) : pystr :=
  match s with
  | [] => []
  | c :: s' => if p c then [] else c :: take_until p s'
  end.

(** [os.path.basename]: what follows the last separator. *)
Definition basename (p : pystr) : pystr :=
  reverse (take_until (fun c => (c =? sep)%N) (reverse p)).

(** [os.path.join] of two components. *)
Definition path_join (a b : pystr) : pystr :=
  if startswith [sep] b then b
  else if bool_decide (a = []) || endswith [sep] a then a ++ b
  else a ++ [sep] ++ b.

(** [os.path.splitext]: the extension starts at the last dot of the last
    component, unless only dots precede it there. *)
Definition splitext (p : pystr) : pystr * pystr :=
  let name := basename p in
  let dir := take (length p - length name) p in
  let ext := reverse (take_until is_dot (reverse name)) in
  let stem := take (length name - length ext - 1) name in
  if existsb is_dot name && negb (forallb is_dot stem)
  then (dir ++ stem, drop (length stem) name)
  else (p, []).

(** ** The converter *)

(** What the script prints, line by line. *)
Inductive event : Type :=
| Processing (base_filename : pystr)
| WarningContent (base_filename : pystr) (e : exn)
| InfoRawContent (base_filename : pystr)
| ErrorRawContent (base_filename : pystr) (e : exn)
| WarningNoContent (base_filename : pystr)
| Converted (md_filename : pystr)
| ErrorNotFound (html_filepath : pystr)
| ErrorConverting (base_filename : pystr) (e : exn)
| PleaseSelect
| NoFolderSelected
| SelectedFolder (input_dir : pystr)
| OutputSavedIn (output_dir : pystr)
| ErrorCreating (output_dir : pystr) (e : exn)
| Starting
| SummaryHeader
| NoHtmlFiles
| Attempted (file_count : Z)
| Successful (successful_conversions : Z)
| FilesWithErrors (conversion_errors : Z)
| CheckFolder (name : pystr).

(** The state a run works on: the files written, the lines printed, the
    objects of the document being converted, and, for the statements about
    rendering, the trees handed to the renderer. *)
Record world : Type := World {
  files : gmap pystr pystr;
  printed : list event;
  dom : store;
  rendered : list node
}.

(** Computations that change the world and either return or raise. *)
Definition M (A : Type) : Type := world -> (exn + A) * world.

Definition ret {A} (a : A) : M A := fun w => (inr a, w).
Definition raise {A} (e : exn) : M A := fun w => (inl e, w).
Definition bind {A B} (m : M A) (k : A -> M B) : M B :=
  fun w => match m w with
           | (inr a, w') => k a w'
           | (inl e, w') => (inl e, w')
           end.

(** [try: m  except Exception as e: h e] *)
Definition try_except {A} (m : M A) (h : exn -> M A) : M A :=
  fun w => match m w with
           | (inr a, w') => (inr a, w')
           | (inl e, w') => h e w'
           end.

Declare Scope py_scope.
Delimit Scope py_scope with py.
Notation "x <- m ;; k" := (bind m (fun x => k))
  (at level 20, m at level 99, k at level 200, only parsing) : py_scope.
Notation "m ;; k" := (bind m (fun _ => k))
  (at level 100, k at level 200, only parsing, right associativity) : py_scope.
Local Open Scope py_scope.

Definition print (e : event) : M unit :=
  fun w => (inr tt, World (files w) (printed w ++ [e]) (dom w) (rendered w)).

Definition set_dom (st : store) : M unit :=
  fun w => (inr tt, World (files w) (printed w) st (rendered w)).

(** The loop over the list items, on the objects of the world. *)
Definition handle_checkboxes (lis : list path) : M unit :=
  fun w => match handle_all lis (dom w) with
           | (None, st) => (inr tt, World (files w) (printed w) st (rendered w))
           | (Some e, st) => (inl e, World (files w) (printed w) st (rendered w))
           end.

Section Converter.

(** [open(html_filepath, 'r', encoding='utf-8')] and the parse of what it
    reads: the document, or the exception raised on the way. *)
Variable open_html : pystr -> exn + node.

(** [md(str(tag), heading_style="ATX", bullets='-')]: the tag is written
    out as HTML and rendered by markdownify, which may raise. *)
Variable md : node -> exn + pystr.

(** [open(full_md_path, 'w', encoding='utf-8')] and the write: the
    exception raised, if any. *)
Variable open_w : pystr -> option exn.

(** [str.lower], by the Unicode tables. *)
Variable lower : pystr -> pystr.

(** [filedialog.askdirectory], [os.makedirs] and [os.listdir]. *)
Variable askdirectory : pystr.
Variable makedirs : pystr -> option exn.
Variable listdir : pystr -> exn + list pystr.

Definition read_soup (html_filepath : pystr) : M node :=
  match open_html html_filepath with
  | inr soup => ret soup
  | inl e => raise e
  end.

(** [content_html = str(content_tag); md(content_html, ...)]: the container
    is written out as it is now. *)
Definition render_content : M pystr :=
  fun w =>
    match content_of (dom w) with
    | Some t =>
        let w' := World (files w) (printed w) (dom w) (rendered w ++ [t]) in
        match md t with
        | inr s => (inr s, w')
        | inl e => (inl e, w')
        end
    | None => (inl (Exception "ValueError"), w)
    end.

Definition write_file (full_md_path content : pystr) : M unit :=
  fun w =>
    match open_w full_md_path with
    | Some e => (inl e, w)
    | None =>
        (inr tt, World (<[full_md_path := content]> (files w)) (printed w)
                       (dom w) (rendered w))
    end.

(** Lines 44-48. *)
Definition extract_title (soup : node) (base_filename : pystr) : pystr :=
  let title_tag := find_div (py "title") soup in
  let title := match title_tag with
               | Some t => get_text_strip t
               | None => fst (splitext base_filename)
               end in
  if bool_decide (title = []) then py "Untitled Note" else title.

(** Lines 58-60. *)
Definition find_content (soup : node) : option node :=
  match find_div (py "note-content") soup with
  | Some c => Some c
  | None => find_div (py "content") soup
  end.

(** Lines 62-96: the Markdown of the content. *)
Definition convert_content (base_filename : pystr) (content : option node) : M pystr :=
  match content with
  | Some content_tag =>
      set_dom [([], content_tag)] ;;
      try_except
        (handle_checkboxes (find_all (is_tag (py "li")) content_tag) ;;
         render_content)
        (fun e_content =>
           print (WarningContent base_filename e_content) ;;
           try_except
             (markdown_content <- render_content ;;
              print (InfoRawContent base_filename) ;;
              ret markdown_content)
             (fun e_md =>
                print (ErrorRawContent base_filename e_md) ;;
                ret (py "[Content Conversion Failed]")))
  | None =>
      print (WarningNoContent base_filename) ;;
      ret []
  end.

Definition newline : char := 10%N.

Definition final_md_content (title markdown_content : pystr) : pystr :=
  py "# " ++ title ++ [newline; newline] ++ markdown_content.

(** Lines 28-116. *)
Definition convert_keep_html_to_md (html_filepath output_dir_path : pystr) : M unit :=
  let base_filename := basename html_filepath in
  try_except
    (print (Processing base_filename) ;;
     soup <- read_soup html_filepath ;;
     let title := extract_title soup base_filename in
     let md_filename := sanitize_filename title ++ py ".md" in
     let full_md_path := path_join output_dir_path md_filename in
     markdown_content <- convert_content base_filename (find_content soup) ;;
     write_file full_md_path (final_md_content title markdown_content) ;;
     print (Converted md_filename))
    (fun e =>
       match e with
       | FileNotFoundError => print (ErrorNotFound html_filepath)
       | _ => print (ErrorConverting base_filename e)
       end).

(** Lines 148-160: the loop of [main], with its two counters. *)
Fixpoint convert_each (input_dir output_dir : pystr) (names : list pystr)
    (file_count conversion_errors : Z) : M (Z * Z) :=
  match names with
  | [] => ret (file_count, conversion_errors)
  | filename :: names' =>
      if endswith (py ".html") (lower filename) then
        let file_count := (file_count + 1)%Z in
        let html_filepath := path_join input_dir filename in
        conversion_errors <-
          try_except
            (convert_keep_html_to_md html_filepath output_dir ;;
             ret conversion_errors)
            (fun _ => ret (conversion_errors + 1)%Z) ;;
        convert_each input_dir output_dir names' file_count conversion_errors
      else convert_each input_dir output_dir names' file_count conversion_errors
  end.

(** Lines 162-172. *)
Definition print_summary (output_dir : pystr) (file_count conversion_errors : Z) : M unit :=
  print SummaryHeader ;;
  (if bool_decide (file_count = 0%Z) then print NoHtmlFiles
   else
     print (Attempted file_count) ;;
     let successful_conversions := (file_count - conversion_errors)%Z in
     print (Successful successful_conversions) ;;
     (if bool_decide (conversion_errors > 0)%Z
      then print (FilesWithErrors conversion_errors) else ret tt)) ;;
  print (CheckFolder (basename output_dir)).

(** Lines 119-172. *)
Definition main : M unit :=
  print PleaseSelect ;;
  let input_dir := askdirectory in
  if bool_decide (input_dir = []) then print NoFolderSelected
  else
    print (SelectedFolder input_dir) ;;
    let output_dir := path_join input_dir (py "converted files") in
    match makedirs output_dir with
    | Some e =>
        if is_OSError e then print (ErrorCreating output_dir e) else raise e
    | None =>
        print (OutputSavedIn output_dir) ;;
        print Starting ;;
        names <- (match listdir input_dir with
                  | inr names => ret names
                  | inl e => raise e
                  end) ;;
        counters <- convert_each input_dir output_dir names 0 0 ;;
        print_summary output_dir (fst counters) (snd counters)
    end.

End Converter.

(** [str.lower] on the letters A to Z, other characters kept: the Unicode
    mapping restricted to ASCII text. *)
Definition ascii_lower (s : pystr) : pystr :=
  map (fun c => if in_range 65 90 c then (c + 32)%N else c) s.

Definition empty_world : world := World ∅ [] [] [].

(** ** Vocabulary of the statements *)

(** Two positions neither of which lies on the way to the other. *)
Definition incomparable (q1 q2 : path) : Prop :=
  is_prefix q1 q2 = false /\ is_prefix q2 q1 = false.

(** No later position lies on the way to an earlier one: a tag comes before
    everything below it, and no position comes twice. *)
Fixpoint document_order (l : list path) : Prop :=
  match l with
  | [] => True
  | q :: l' => Forall (fun q2 => is_prefix q2 q = false) l' /\ document_order l'
  end.


Definition roots (st : store) : list path := map fst st.

(** What the loop keeps true of the trees [D] detached so far and of the
    container [T], for the list items [R] still to come: every one of them
    is an element of [content] that some tree still holds unchanged, and none
    has been detached itself. *)
Record loop_inv (content : node) (R : list path) (D : store) (T : node) : Prop := {
  inv_roots : Forall (fun r => r <> []) (roots D);
  inv_deref : forall q, q ∈ R ->
    exists li, deref q (D ++ [([], T)]) = Some li /\ lookup_path q content = Some li;
  inv_fresh : forall q, q ∈ R -> (q ∉ roots D) /\ (q <> [])
}.

Definition is_li (t : node) : bool := is_tag (py "li") t.

(** A list item lies above position [q] in the content container. *)
Definition nested_in_li (content : node) (q : path) : bool :=
  existsb (fun k => match lookup_path (take k q) content with
                    | Some t => is_li t
                    | None => false
                    end)
          (seq 1 (length q - 1)).

(** The reading of the specification: the label is taken from the element
    that follows the check box next among its siblings, whatever its tag. *)
Definition is_element (t : node) : bool :=
  match t with
  | Tag _ _ _ => true
  | _ => false
  end.

Definition next_sibling_element (root : node) (q : path) : option node :=
  match split_last q with
  | Some (parent, i) =>
      match lookup_path parent root with
      | Some (Tag _ _ cs) => List.find is_element (drop (S i) cs)
      | _ => None
      end
  | None => None
  end.

Definition spec_checkbox_text (li : node) (cq : path) (checkbox : node) : pystr :=
  let label := match next_sibling_element li cq with
               | Some e => get_text_strip e
               | None => []
               end in
  if has_attr (py "checked") checkbox then py "- [x] " ++ label
  else py "- [ ] " ++ label.

(** After the loop the container holds, where the list item at [q] was, a
    paragraph with the given text. *)
Definition replaced_by_paragraph (text : pystr) (content : node) (q : path) : Prop :=
  exists st, normalize content = (None, st)
             /\ (content_of st ≫= lookup_path q) = Some (new_paragraph text).

(** Every list item with a check box is replaced, with the label as the
    specification words it. *)
Definition spec_normalization (content : node) : Prop :=
  forall q li cq checkbox,
    q <> [] -> lookup_path q content = Some li -> is_li li = true ->
    find_checkbox li = Some (cq, checkbox) ->
    replaced_by_paragraph (spec_checkbox_text li cq checkbox) content q.

(** ** Sample documents *)

Local Open Scope string_scope.

Definition el (name : string) (attrs : list (string * string)) (cs : list node) : node :=
  Tag (py name) (map (fun kv => (py (fst kv), py (snd kv))) attrs) cs.

Definition txt (s : string) : node := NavigableString (py s).

(** A list item of a check list: the check box, then the label in a span. *)
Definition item (checked : bool) (label : string) : node :=
  el "li" [("class", "listitem")]
    [el "input" (("type", "checkbox") :: if checked then [("checked", "")] else []) [];
     el "span" [("class", "text")] [txt label]].

Definition shopping_content : node :=
  el "div" [("class", "content")]
    [el "ul" [("class", "list")] [item true "Milk"; item false "Eggs"]].

Definition note (title : list node) (body : list node) : node :=
  el "[document]" []
    [el "html" [] [el "body" [] [el "div" [("class", "note")] (title ++ body)]]].

Definition shopping : node :=
  note [el "div" [("class", "title")] [txt "Shopping List"]] [shopping_content].

(** A check box followed by a bold element and then the span, in a list item
    that holds a second check list. *)
Definition nested_content : node :=
  el "div" [("class", "content")]
    [el "ul" []
       [el "li" []
          [el "input" [("type", "checkbox")] [];
           el "b" [] [txt "x"];
           el "span" [] [txt "Milk"];
           el "ul" [] [item true "Eggs"]]]].

(** A note whose title container is empty, and one without a content
    container. *)
Definition empty_title : node :=
  note [el "div" [("class", "title")] [txt "  "]] [shopping_content].

Definition title_only : node :=
  note [el "div" [("class", "title")] [txt "Ideas"]] [].

Local Close Scope string_scope.

(** ** Vocabulary for the converter and the batch *)

(** The title as the specification words it: the text of the title
    container when it yields text, otherwise the stem of the file name,
    otherwise the literal. *)
Definition spec_title (soup : node) (base_filename : pystr) : pystr :=
  let text := match find_div (py "title") soup with
              | Some t => get_text_strip t
              | None => []
              end in
  if bool_decide (text = []) then
    let stem := fst (splitext base_filename) in
    if bool_decide (stem = []) then py "Untitled Note" else stem
  else text.

(** The test of line 152. *)
Definition is_html_name (lower : pystr -> pystr) (filename : pystr) : bool :=
  endswith (py ".html") (lower filename).

Definition is_processing (e : event) : bool :=
  match e with
  | Processing _ => true
  | _ => false
  end.

(** The number of conversions started, by the lines printed. *)
Definition conversions_started (w : world) : nat :=
  length (List.filter is_processing (printed w)).

(** A renderer that fails on every input, as markdownify does at its
    recursion limit. *)
Definition md_fails (t : node) : exn + pystr := inl (Exception "RecursionError").

(** A renderer for the examples: it returns the text below the tag. *)
Definition md_text (t : node) : exn + pystr := inr (get_text_strip t).

(** Every source file parses to the given document. *)
Definition open_as (soup : node) (html_filepath : pystr) : exn + node := inr soup.

(** A directory in which no file can be opened for reading. *)
Definition open_missing (html_filepath : pystr) : exn + node := inl FileNotFoundError.

(** The content container of the shopping note after the loop. *)
Definition shopping_replaced : node :=
  Tag (py "div") [(py "class", py "content")]
    [Tag (py "ul") [(py "class", py "list")]
       [new_paragraph (py "- [x] Milk"); new_paragraph (py "- [ ] Eggs")]].

Definition no_write_error (full_md_path : pystr) : option exn := None.

Definition no_makedirs_error (output_dir : pystr) : option exn := None.

(** A directory with two notes and two other entries. *)
Definition listing : list pystr :=
  [py "shopping.html"; py "Takeout.json"; py "IDEAS.HTML"; py "converted files"].

Definition listdir_as (names : list pystr) (input_dir : pystr) : exn + list pystr :=
  inr names.

(** ** Vocabulary for further properties *)

(** The form of a sanitised name without the bound on its length. *)
Definition is_clean_trimmed (x : pystr) : bool :=
  negb (bool_decide (x = []))
  && forallb (fun c => negb (is_invalid c) && negb (c =? chr "+")%N) x
  && ends_free_b isspace x
  && ends_free_b is_dot x.

Definition dot_free (x : pystr) : bool := forallb (fun c => negb (is_dot c)) x.

(** Only characters the sanitiser deletes, or white space. *)
Definition only_deleted_or_space (x : pystr) : bool :=
  forallb (fun c => is_invalid c || isspace c) x.

(** A list item with a check box sits at [q] in [T]. *)
Definition live (T : node) (q : path) : Prop :=
  exists n, lookup_path q T = Some n /\ is_li n = true /\ find_checkbox n <> None.

(** What the loop keeps true besides [loop_inv]: a list item with a check
    box that is still in the container is still to come; every detached
    root lies at or below a paragraph that replaced a detached root; and no
    item to come lies above a detached root. *)
Record clear_inv (R : list path) (D : store) (T : node) : Prop := {
  ci_live : forall q, q <> [] -> live T q -> q ∈ R;
  ci_para : forall r, r ∈ roots D ->
    exists r0 s, r0 ∈ roots D /\ is_prefix r0 r = true
                 /\ lookup_path r0 T = Some (new_paragraph s);
  ci_order : forall r q2, r ∈ roots D -> q2 ∈ R -> is_prefix q2 r = false
}.

(** A container with a plain list item beside a check list item. *)
Definition mixed_content : node :=
  (el "div" [("class", "content")]
     [el "ul" [] [el "li" [] [txt "Milk"]; item true "Eggs"]])%string.

(** The line the handlers of lines 108-116 print for an exception. *)
Definition failure_line (html_filepath : pystr) (e : exn) : event :=
  match e with
  | FileNotFoundError => ErrorNotFound html_filepath
  | _ => ErrorConverting (basename html_filepath) e
  end.

(** The path of the Markdown file for a document read from [html_filepath]. *)
Definition output_path (output_dir_path html_filepath : pystr) (soup : node) : pystr :=
  path_join output_dir_path
    (sanitize_filename (extract_title soup (basename html_filepath)) ++ py ".md").

(** An output directory that cannot be written to. *)
Definition write_denied (full_md_path : pystr) : option exn :=
  Some (OSError "PermissionError").

(** A second note with the title of the shopping note and no content. *)
Definition shopping_again : node :=
  (note [el "div" [("class", "title")] [txt "Shopping List"]] [])%string.

(** Two source files whose notes carry the same title. *)
Definition open_two (html_filepath : pystr) : exn + node :=
  if bool_decide (html_filepath = py "notes/a.html") then inr shopping
  else inr shopping_again.

(** The lines of the summary for [N] attempted files, as the code prints
    them when its error counter is 0. *)
Definition summary_lines (output_dir : pystr) (N : nat) : list event :=
  SummaryHeader
  :: (if bool_decide (N = 0) then [NoHtmlFiles]
      else [Attempted (Z.of_nat N); Successful (Z.of_nat N)])
  ++ [CheckFolder (basename output_dir)].

(** A directory that cannot be listed, and an output directory that cannot
    be made. *)
Definition listdir_fails (input_dir : pystr) : exn + list pystr :=
  inl (OSError "PermissionError").

Definition makedirs_denied (output_dir : pystr) : option exn :=
  Some (OSError "PermissionError").

Definition sep_free (s : pystr) : bool := forallb (fun c => negb (c =? sep)%N) s.

(** No list item with a check box lies at, above or below position [q]. *)
Definition apart_from_check_list (content : node) (q : path) : bool :=
  forallb (fun r => (negb (is_prefix r q) && negb (is_prefix q r))
                    || match lookup_path r content with
                       | Some li => bool_decide (find_checkbox li = None)
                       | None => true
                       end)
          (find_all is_li content).

(** The world when the loop of [main] starts. *)
Definition started_world (askdirectory : pystr) (w : world) : world :=
  World (files w)
    (printed w ++ [PleaseSelect; SelectedFolder askdirectory;
                   OutputSavedIn (path_join askdirectory (py "converted files"));
                   Starting])
    (dom w) (rendered w).

(** * Properties *)

(** ** The filename sanitiser *)

(** *** Facts about stripping *)

Section Strip.
Context (p : char -> bool).

Lemma lstrip_suffix (s : pystr) : lstrip p s `suffix_of` s.
Proof.
  induction s as [|c s IH]; simpl; [done|].
  destruct (p c); [by apply suffix_cons_r | done].
Qed.

Lemma lstrip_head (s : pystr) (c : char) :
  head (lstrip p s) = Some c -> p c = false.
Proof.
  induction s as [|a s IH]; simpl; [done|].
  destruct (p a) eqn:Ha; [done|]. simpl. by intros [= <-].
Qed.

Lemma lstrip_id (s : pystr) :
  (forall c, head s = Some c -> p c = false) -> lstrip p s = s.
Proof.
  destruct s as [|a s]; simpl; [done|].
  intros H. by rewrite (H a eq_refl).
Qed.

Lemma rstrip_prefix (s : pystr) : rstrip p s `prefix_of` s.
Proof.
  unfold rstrip.
  destruct (lstrip_suffix (reverse s)) as [k Hk].
  exists (reverse k).
  rewrite <- (reverse_involutive s), Hk at 1.
  by rewrite reverse_app.
Qed.

Lemma rstrip_last (s : pystr) (c : char) :
  last (rstrip p s) = Some c -> p c = false.
Proof. unfold rstrip. rewrite last_reverse. apply lstrip_head. Qed.

Lemma rstrip_id (s : pystr) :
  (forall c, last s = Some c -> p c = false) -> rstrip p s = s.
Proof.
  intros H. unfold rstrip. rewrite lstrip_id, reverse_involutive; [done|].
  intros c. rewrite head_reverse. apply H.
Qed.

Lemma strip_with_subseteq (s : pystr) : strip_with p s ⊆ s.
Proof.
  unfold strip_with. intros c Hc.
  destruct (rstrip_prefix (lstrip p s)) as [k1 Hk1].
  destruct (lstrip_suffix s) as [k2 Hk2].
  rewrite Hk2, Hk1. set_solver.
Qed.

Lemma strip_with_id (s : pystr) :
  (forall c, head s = Some c -> p c = false) ->
  (forall c, last s = Some c -> p c = false) ->
  strip_with p s = s.
Proof.
  intros Hh Hl. unfold strip_with. rewrite (lstrip_id s Hh). by apply rstrip_id.
Qed.
End Strip.

(** *** What the sanitiser guarantees for every input *)

Lemma is_invalid_spec (c : char) : is_invalid c = true <-> c ∈ invalid_chars.
Proof.
  unfold is_invalid. rewrite existsb_exists. split.
  - intros (x & Hx & ->%N.eqb_eq). by apply list_elem_of_In.
  - intros H. exists c. split; [by apply list_elem_of_In | apply N.eqb_refl].
Qed.

Lemma elem_of_replace (old new c : char) (s : pystr) :
  c ∈ replace old new s -> c = new \/ (c ∈ s /\ c <> old).
Proof.
  unfold replace. intros (x & -> & Hx)%list_elem_of_fmap.
  destruct (N.eqb_spec x old); [by left | by right].
Qed.

Lemma replace_absent (old new : char) (s : pystr) :
  old ∉ s -> replace old new s = s.
Proof.
  unfold replace. induction s as [|a s IH]; simpl; [done|].
  intros [Ha Hs]%not_elem_of_cons. rewrite IH by done.
  destruct (N.eqb_spec a old); [by subst | done].
Qed.

Lemma sanitize_filename_unfold (filename : pystr) :
  sanitize_filename filename =
  if bool_decide (max_len < length (named filename))
  then take max_len (named filename) else named filename.
Proof. reflexivity. Qed.

Lemma clean_char_intro (c : char) :
  is_invalid c = false -> (c =? chr "+")%N = false -> clean_char c.
Proof.
  intros Hi Hp. split.
  - intros H%is_invalid_spec. congruence.
  - by apply N.eqb_neq.
Qed.

Lemma trimmed_clean (filename : pystr) (c : char) :
  c ∈ trimmed filename -> clean_char c.
Proof.
  unfold trimmed, strip_chars, strip. intros H.
  apply strip_with_subseteq, strip_with_subseteq in H.
  apply elem_of_replace in H as [->|[H Hplus]].
  { by apply clean_char_intro. }
  split; [|done].
  apply elem_of_replace in H as [->|[H _]].
  { by apply clean_char_intro. }
  apply list_elem_of_In, filter_In in H as [_ H].
  intros Hin%is_invalid_spec. by rewrite Hin in H.
Qed.

Lemma untitled_clean (c : char) : c ∈ py "Untitled Note" -> clean_char c.
Proof.
  intros H. apply list_elem_of_In in H. vm_compute in H.
  repeat (destruct H as [<-|H]; [by apply clean_char_intro|]).
  done.
Qed.

(** For every input the result holds none of the nine characters and no
    plus sign, is not empty and has at most 200 characters. *)
Theorem sanitize_filename_safe (filename : pystr) :
  (forall c, c ∈ sanitize_filename filename -> clean_char c)
  /\ sanitize_filename filename <> []
  /\ length (sanitize_filename filename) <= max_len.
Proof.
  rewrite sanitize_filename_unfold.
  set (s := named filename).
  assert (Hs : (forall c, c ∈ s -> clean_char c) /\ s <> []).
  { subst s. unfold named. destruct (bool_decide (trimmed filename = [])) eqn:He; simpl.
    - split; [apply untitled_clean | done].
    - apply bool_decide_eq_false in He.
      destruct (forallb is_dot (trimmed filename)).
      + split; [apply untitled_clean | done].
      + split; [apply trimmed_clean | done]. }
  destruct Hs as [Hc Hne].
  case_bool_decide as Hlen.
  - split; [|split].
    + intros c Hin. by apply Hc, (subseteq_take max_len).
    + by destruct s.
    + rewrite length_take. lia.
  - split; [done|split; [done|]]. unfold max_len in *. lia.
Qed.

(** *** Inputs already in sanitised form *)
Lemma re_sub_invalid_id (x : pystr) :
  (forall c, c ∈ x -> c ∉ invalid_chars) -> re_sub_invalid x = x.
Proof.
  unfold re_sub_invalid. induction x as [|a x IH]; intros H; [done|].
  simpl. destruct (is_invalid a) eqn:E; simpl.
  - apply is_invalid_spec in E. destruct (H a); [by left | done].
  - f_equal. apply IH. intros c Hc. apply H. by right.
Qed.

Lemma lstrip_ext (p q : char -> bool) (s : pystr) :
  (forall c, p c = q c) -> lstrip p s = lstrip q s.
Proof.
  intros E. induction s as [|a s IH]; simpl; [done|].
  rewrite E, IH. done.
Qed.

Lemma is_dot_chars (c : char) : existsb (N.eqb c) (py ".") = is_dot c.
Proof. change (py ".") with [46%N]. unfold is_dot. simpl. apply orb_false_r. Qed.

Lemma strip_chars_dot (s : pystr) : strip_chars (py ".") s = strip_with is_dot s.
Proof.
  unfold strip_chars, strip_with, rstrip.
  by rewrite !(lstrip_ext _ is_dot _ is_dot_chars).
Qed.

Lemma trimmed_id (x : pystr) : sanitized_form x -> trimmed x = x.
Proof.
  intros [_ _ Hc [Hs1 Hs2] [Hd1 Hd2]]. unfold trimmed.
  rewrite re_sub_invalid_id by (intros c Hin; apply (Hc c Hin)).
  rewrite (replace_absent (chr ":")).
  2:{ intros Hin. destruct (Hc _ Hin) as [Hbad _]. apply Hbad.
      by apply is_invalid_spec. }
  rewrite (replace_absent (chr "+")).
  2:{ intros Hin. by destruct (Hc _ Hin) as [_ Hbad]. }
  unfold strip. rewrite strip_with_id by done.
  rewrite strip_chars_dot. by apply strip_with_id.
Qed.

(** ** Positions, lookup and replacement *)

Lemma is_prefix_app (r x : path) : is_prefix r (r ++ x) = true.
Proof. induction r as [|i r IH]; simpl; [done|]. by rewrite Nat.eqb_refl. Qed.

Lemma is_prefix_refl (r : path) : is_prefix r r = true.
Proof. rewrite <- (app_nil_r r) at 2. apply is_prefix_app. Qed.

Lemma is_prefix_drop (r q : path) :
  is_prefix r q = true -> q = r ++ drop (length r) q.
Proof.
  revert q. induction r as [|i r IH]; intros [|j q]; simpl; try done.
  intros [->%Nat.eqb_eq H]%andb_prop. f_equal. by apply IH.
Qed.

Lemma is_prefix_nil_r (r : path) : is_prefix r [] = true -> r = [].
Proof. by destruct r. Qed.

Lemma is_prefix_trans (a b c : path) :
  is_prefix a b = true -> is_prefix b c = true -> is_prefix a c = true.
Proof.
  intros ->%is_prefix_drop ->%is_prefix_drop.
  rewrite <- app_assoc. apply is_prefix_app.
Qed.

Lemma incomparable_drop (r q1 q2 : path) :
  is_prefix r q1 = true -> is_prefix r q2 = true -> incomparable q1 q2 ->
  incomparable (drop (length r) q1) (drop (length r) q2).
Proof.
  revert q1 q2. induction r as [|i r IH]; intros q1 q2; simpl; [done|].
  destruct q1 as [|j1 q1], q2 as [|j2 q2]; try done.
  intros [->%Nat.eqb_eq H1]%andb_prop [->%Nat.eqb_eq H2]%andb_prop [Ha Hb].
  simpl in Ha, Hb. rewrite Nat.eqb_refl in Ha, Hb. by apply IH.
Qed.

Lemma lookup_path_app (a b : path) (t : node) :
  lookup_path (a ++ b) t = lookup_path a t ≫= lookup_path b.
Proof.
  revert t. induction a as [|i a IH]; intros t; simpl; [done|].
  destruct t as [| |n at' cs]; try done.
  destruct (cs !! i); [apply IH | done].
Qed.

Lemma lookup_replace_at (q : path) (new old t : node) :
  lookup_path q t = Some old -> lookup_path q (replace_at q new t) = Some new.
Proof.
  revert t. induction q as [|i q IH]; intros t; simpl; [done|].
  destruct t as [| |n a cs]; try done.
  destruct (cs !! i) as [c|] eqn:Hc; [|done]. intros H.
  rewrite list_lookup_alter_eq, Hc. simpl. by apply IH.
Qed.

Lemma lookup_replace_at_other (q q' : path) (new t : node) :
  incomparable q q' ->
  lookup_path q' (replace_at q new t) = lookup_path q' t.
Proof.
  revert q' t. induction q as [|i q IH]; intros q' t [H1 H2]; simpl in *; [done|].
  destruct q' as [|j q']; [done|].
  destruct t as [| |n a cs]; try done. simpl.
  destruct (Nat.eqb_spec i j) as [->|Hne].
  - simpl in H2. rewrite Nat.eqb_refl in H2. simpl in H2.
    rewrite list_lookup_alter_eq. destruct (cs !! j) as [c|]; simpl; [|done].
    by apply IH.
  - by rewrite list_lookup_alter_ne.
Qed.

(** ** The elements below a tag, in document order *)

Lemma descendants_Tag (n : pystr) (a : list (pystr * pystr)) (cs : list node) :
  descendants (Tag n a cs) = children_from 0 cs.
Proof.
  simpl. generalize 0. induction cs as [|c cs IH]; intros i; simpl; [done|].
  by rewrite IH.
Qed.

(** An induction principle that reaches the contents of a tag. *)
Lemma node_rect_contents (P : node -> Prop) :
  (forall s, P (NavigableString s)) ->
  (forall s, P (Comment s)) ->
  (forall n a cs, Forall P cs -> P (Tag n a cs)) ->
  forall t, P t.
Proof.
  intros Hs Hc Ht. fix IH 1. intros [s|s|n a cs]; [apply Hs | apply Hc |].
  apply Ht. induction cs as [|c cs IHcs]; constructor; [apply IH | apply IHcs].
Qed.

Lemma document_order_app (l1 l2 : list path) :
  document_order l1 -> document_order l2 ->
  (forall a b, a ∈ l1 -> b ∈ l2 -> is_prefix b a = false) ->
  document_order (l1 ++ l2).
Proof.
  induction l1 as [|q l1 IH]; simpl; [done|].
  intros [Hq Hl1] Hl2 Hx. split.
  - apply Forall_app. split; [done|].
    apply Forall_forall. intros b Hb. apply Hx; [by left | done].
  - apply IH; [done..|]. intros a b Ha Hb. apply Hx; [by right | done].
Qed.

Lemma document_order_cons_map (i : nat) (l : list path) :
  document_order l -> document_order (map (cons i) l).
Proof.
  induction l as [|q l IH]; simpl; [done|]. intros [Hq Hl]. split; [|by apply IH].
  apply Forall_forall. intros q2 (x & -> & Hx)%list_elem_of_fmap. simpl.
  rewrite Nat.eqb_refl. simpl. rewrite Forall_forall in Hq. by apply Hq.
Qed.

Lemma document_order_filter_paths (p : path -> bool) (l : list path) :
  document_order l -> document_order (List.filter p l).
Proof.
  induction l as [|q l IH]; simpl; [done|]. intros [Hq Hl].
  assert (Hf : Forall (fun q2 => is_prefix q2 q = false) (List.filter p l)).
  { apply Forall_forall. intros x Hx%list_elem_of_In%filter_In.
    rewrite Forall_forall in Hq. apply Hq, list_elem_of_In, Hx. }
  destruct (p q); simpl; [split|]; auto.
Qed.

Lemma children_from_head (i : nat) (cs : list node) (q : path) (n : node) :
  (q, n) ∈ children_from i cs -> exists j q', q = j :: q' /\ i <= j.
Proof.
  revert i. induction cs as [|c cs IH]; intros i; simpl; [by intros ?%elem_of_nil|].
  rewrite elem_of_cons, elem_of_app. intros [[= -> ->]|[H|H]].
  - by exists i, [].
  - apply list_elem_of_fmap in H as ([q' n'] & [= -> ->] & _). simpl.
    by exists i, q'.
  - destruct (IH _ H) as (j & q' & -> & Hj). exists j, q'. split; [done|lia].
Qed.

Lemma descendants_nonempty (t : node) (q : path) (n : node) :
  (q, n) ∈ descendants t -> q <> [].
Proof.
  destruct t as [s|s|nm a cs]; [by intros ?%elem_of_nil..|].
  rewrite descendants_Tag.
  intros (j & q' & -> & _)%children_from_head. done.
Qed.

Lemma map_fst_under (i : nat) (l : list (path * node)) :
  map fst (map (under i) l) = map (cons i) (map fst l).
Proof. induction l as [|x l IH]; simpl; [done|]. by rewrite IH. Qed.

Lemma children_from_order (i : nat) (cs : list node) :
  Forall (fun c => document_order (map fst (descendants c))) cs ->
  document_order (map fst (children_from i cs)).
Proof.
  intros H. revert i. induction H as [|c cs Hc Hcs IH]; intros i; simpl; [done|].
  rewrite map_app, map_fst_under. split.
  - apply Forall_app. split; apply Forall_forall; intros q2 Hq2.
    + apply list_elem_of_fmap in Hq2 as (x & -> & Hx).
      apply list_elem_of_fmap in Hx as ([x' n] & -> & Hx).
      apply descendants_nonempty in Hx. simpl in *.
      rewrite Nat.eqb_refl. by destruct x'.
    + apply list_elem_of_fmap in Hq2 as ([x n] & -> & Hx).
      apply children_from_head in Hx as (j & q' & -> & Hj). simpl.
      destruct (Nat.eqb_spec j i); [lia | done].
  - apply document_order_app; [by apply document_order_cons_map | apply IH |].
    intros a b (x & -> & _)%list_elem_of_fmap Hb.
    apply list_elem_of_fmap in Hb as ([y n] & -> & Hy).
    apply children_from_head in Hy as (j & q' & -> & Hj). simpl.
    destruct (Nat.eqb_spec j i); [lia | done].
Qed.

Lemma descendants_order (t : node) : document_order (map fst (descendants t)).
Proof.
  induction t as [s|s|n a cs IH] using node_rect_contents; [done..|].
  rewrite descendants_Tag. by apply children_from_order.
Qed.

Lemma children_from_lookup (i : nat) (cs : list node) (q : path) (n : node) :
  Forall (fun c => forall q n, (q, n) ∈ descendants c -> lookup_path q c = Some n) cs ->
  (q, n) ∈ children_from i cs ->
  exists j q', q = (i + j) :: q' /\ (cs !! j ≫= lookup_path q') = Some n.
Proof.
  intros H. revert i. induction H as [|c cs Hc Hcs IH]; intros i; simpl;
    [by intros ?%elem_of_nil|].
  rewrite elem_of_cons, elem_of_app. intros [[= -> ->]|[Hin|Hin]].
  - exists 0, []. by rewrite Nat.add_0_r.
  - apply list_elem_of_fmap in Hin as ([q' n'] & [= -> ->] & Hin).
    exists 0, q'. rewrite Nat.add_0_r. split; [done|]. by apply Hc.
  - destruct (IH _ Hin) as (j & q' & -> & Hj). exists (S j), q'.
    split; [f_equal; lia | done].
Qed.

Lemma descendants_lookup (t : node) (q : path) (n : node) :
  (q, n) ∈ descendants t -> lookup_path q t = Some n.
Proof.
  revert q n. induction t as [s|s|nm a cs IH] using node_rect_contents;
    intros q n; [by intros ?%elem_of_nil..|].
  rewrite descendants_Tag. intros Hin.
  destruct (children_from_lookup 0 cs q n IH Hin) as (j & q' & -> & Hj).
  simpl. destruct (cs !! j); [done | discriminate].
Qed.

Lemma lookup_children_from (i j : nat) (cs : list node) (c : node) (q : path) (n : node) :
  Forall (fun c => forall q n, q <> [] -> lookup_path q c = Some n ->
                               (q, n) ∈ descendants c) cs ->
  cs !! j = Some c -> lookup_path q c = Some n ->
  ((i + j) :: q, n) ∈ children_from i cs.
Proof.
  intros H. revert i j. induction H as [|c0 cs Hc Hcs IH]; intros i j; [done|].
  destruct j as [|j]; simpl.
  - intros [= ->] Hq. rewrite Nat.add_0_r. destruct q as [|k q].
    + simpl in Hq. injection Hq as ->. by left.
    + right. apply elem_of_app. left. apply list_elem_of_fmap.
      exists (k :: q, n). split; [done|]. by apply Hc.
  - intros Hj Hq. right. apply elem_of_app. right.
    replace (i + S j) with (S i + j) by lia. by apply IH.
Qed.

Lemma lookup_descendants (t : node) (q : path) (n : node) :
  q <> [] -> lookup_path q t = Some n -> (q, n) ∈ descendants t.
Proof.
  revert q n. induction t as [s|s|nm a cs IH] using node_rect_contents;
    intros q n Hq; destruct q as [|j q]; try done.
  intros Hl. rewrite descendants_Tag. simpl in Hl.
  destruct (cs !! j) as [c|] eqn:Hj; [|done].
  by apply (lookup_children_from 0 j cs c).
Qed.

(** The positions [find_all] returns. *)
Lemma elem_of_find_all (p : node -> bool) (t : node) (q : path) :
  q ∈ find_all p t <-> q <> [] /\ exists n, lookup_path q t = Some n /\ p n = true.
Proof.
  unfold find_all. rewrite list_elem_of_fmap. split.
  - intros ([q' n] & -> & Hin). apply list_elem_of_In, filter_In in Hin as [Hin Hp].
    apply list_elem_of_In in Hin. split; [by eapply descendants_nonempty|].
    exists n. split; [by apply descendants_lookup | done].
  - intros (Hq & n & Hl & Hp). exists (q, n). split; [done|].
    apply list_elem_of_In, filter_In. split; [|done].
    by apply list_elem_of_In, lookup_descendants.
Qed.

Lemma document_order_sub (p : path * node -> bool) (l : list (path * node)) :
  document_order (map fst l) -> document_order (map fst (List.filter p l)).
Proof.
  induction l as [|x l IH]; simpl; [done|]. intros [Hq Hl].
  assert (Hf : Forall (fun q2 => is_prefix q2 (fst x) = false)
                      (map fst (List.filter p l))).
  { apply Forall_forall. intros q2 (y & -> & Hy)%list_elem_of_fmap.
    apply list_elem_of_In, filter_In in Hy as [Hy _].
    rewrite Forall_forall in Hq. apply Hq, list_elem_of_fmap.
    exists y. split; [done | by apply list_elem_of_In]. }
  destruct (p x); simpl; [split|]; auto.
Qed.

Lemma find_all_order (p : node -> bool) (t : node) : document_order (find_all p t).
Proof. apply document_order_sub, descendants_order. Qed.

(** ** The store of attached and detached trees *)

Lemma holder_app (q : path) (D S : store) :
  holder q (D ++ S) = match holder q D with
                      | Some x => Some x
                      | None => holder q S
                      end.
Proof.
  unfold holder. induction D as [|[r t] D IH]; simpl; [done|].
  by destruct (is_prefix r q).
Qed.

Lemma holder_None (q : path) (D : store) :
  holder q D = None <-> (forall r, r ∈ roots D -> is_prefix r q = false).
Proof.
  unfold holder, roots. induction D as [|[r t] D IH]; simpl.
  - split; [by intros _ r ?%elem_of_nil | done].
  - destruct (is_prefix r q) eqn:E.
    + split; [done|]. intros H. rewrite H in E; [done | by left].
    + rewrite IH. split.
      * intros H r' [->|Hr']%elem_of_cons; [done | by apply H].
      * intros H r' Hr'. apply H. by right.
Qed.

Lemma holder_Some (q : path) (D : store) (r : path) (t : node) :
  holder q D = Some (r, t) -> is_prefix r q = true /\ r ∈ roots D.
Proof.
  unfold holder, roots. intros H. apply find_some in H as [Hin Hp].
  split; [done|]. apply list_elem_of_fmap. exists (r, t).
  split; [done | by apply list_elem_of_In].
Qed.

Lemma deref_push_below (q q2 : path) (old : node) (st : store) :
  is_prefix q q2 = true ->
  deref q2 ((q, old) :: st) = lookup_path (drop (length q) q2) old.
Proof. intros H. unfold deref, holder. simpl. by rewrite H. Qed.

Lemma deref_push_other (q q2 : path) (old : node) (st : store) :
  is_prefix q q2 = false -> deref q2 ((q, old) :: st) = deref q2 st.
Proof. intros H. unfold deref, holder. simpl. by rewrite H. Qed.

Lemma deref_replace_other (q q2 : path) (new : node) (st : store) :
  incomparable q q2 -> deref q2 (replace_in_holder q new st) = deref q2 st.
Proof.
  intros Hi. unfold deref, holder.
  induction st as [|[r t] st IH]; simpl; [done|].
  destruct (is_prefix r q) eqn:E1; simpl.
  - destruct (is_prefix r q2) eqn:E2; [|done].
    apply lookup_replace_at_other. by apply incomparable_drop.
  - destruct (is_prefix r q2) eqn:E2; [done | apply IH].
Qed.

Lemma replace_in_holder_app_l (q : path) (new : node) (D S : store) (x : path * node) :
  holder q D = Some x ->
  replace_in_holder q new (D ++ S) = replace_in_holder q new D ++ S.
Proof.
  unfold holder. induction D as [|[r t] D IH]; simpl; [done|].
  destruct (is_prefix r q); [done|]. intros H. by rewrite IH.
Qed.

Lemma replace_in_holder_app_r (q : path) (new : node) (D S : store) :
  holder q D = None ->
  replace_in_holder q new (D ++ S) = D ++ replace_in_holder q new S.
Proof.
  unfold holder. induction D as [|[r t] D IH]; simpl; [done|].
  destruct (is_prefix r q); [done|]. intros H. by rewrite IH.
Qed.

Lemma roots_replace_in_holder (q : path) (new : node) (D : store) :
  roots (replace_in_holder q new D) = roots D.
Proof.
  unfold roots. induction D as [|[r t] D IH]; simpl; [done|].
  destruct (is_prefix r q); simpl; [done | by rewrite IH].
Qed.

Lemma content_of_store (D : store) (T : node) :
  Forall (fun r => r <> []) (roots D) -> content_of (D ++ [([], T)]) = Some T.
Proof.
  intros H. unfold content_of, deref. rewrite holder_app.
  replace (holder [] D) with (@None (path * node)); [done|].
  symmetry. apply holder_None. intros r Hr. rewrite Forall_forall in H.
  specialize (H r Hr). by destruct r.
Qed.

(** ** One turn of the loop *)

Lemma loop_inv_tail (content : node) (q : path) (R : list path) (D : store) (T : node) :
  loop_inv content (q :: R) D T -> loop_inv content R D T.
Proof.
  intros [H1 H2 H3]. split; [done|..]; intros q' Hq'; [apply H2 | apply H3]; by right.
Qed.

(** What a turn does to the store: nothing, when the item holds no check
    box; otherwise the item is detached and the paragraph takes its place,
    in the container when no detached tree holds the item, and in that tree
    otherwise. *)
Lemma handle_li_step (content : node) (q : path) (R : list path) (D : store) (T : node) :
  document_order (q :: R) ->
  loop_inv content (q :: R) D T ->
  exists li, lookup_path q content = Some li /\
  match find_checkbox li with
  | None => handle_li q (D ++ [([], T)]) = inr (D ++ [([], T)])
  | Some (cq, checkbox) =>
      let new := new_paragraph (checkbox_text li cq checkbox) in
      exists D' T',
        handle_li q (D ++ [([], T)]) = inr (D' ++ [([], T')])
        /\ loop_inv content R D' T'
        /\ roots D' = q :: roots D
        /\ match holder q D with
           | Some _ => T' = T
           | None => T' = replace_at q new T /\ lookup_path q T = Some li
           end
  end.
Proof.
  intros [Hord _] Hinv.
  destruct (inv_deref _ _ _ _ Hinv q) as (li & Hd & Hl); [by left|].
  destruct (inv_fresh _ _ _ _ Hinv q) as [Hfresh Hne]; [by left|].
  exists li. split; [done|].
  unfold handle_li. rewrite Hd.
  destruct (find_checkbox li) as [[cq checkbox]|]; [|done].
  cbv zeta. set (new := new_paragraph _).
  unfold replace_with. unfold deref in Hd.
  destruct (holder q (D ++ [([], T)])) as [[r t]|] eqn:Hh; [|done].
  assert (Hr : is_prefix r q = true /\ (r ∈ roots D \/ r = [])).
  { apply holder_Some in Hh as [Hp Hin]. split; [done|].
    unfold roots in Hin. rewrite map_app in Hin.
    apply elem_of_app in Hin as [Hin|Hin]; [by left|].
    right. by apply list_elem_of_singleton in Hin. }
  destruct Hr as [Hp Hr].
  destruct (drop (length r) q) as [|k rel] eqn:Hrel.
  { exfalso. apply is_prefix_drop in Hp. rewrite Hrel, app_nil_r in Hp. subst r.
    destruct Hr; done. }
  rewrite Hd.
  assert (Hinv' : forall D' T',
    (q, li) :: replace_in_holder q new (D ++ [([], T)]) = ((q, li) :: D') ++ [([], T')] ->
    roots D' = roots D ->
    loop_inv content R ((q, li) :: D') T').
  { intros D' T' HE HR. split.
    - simpl. constructor; [done|]. rewrite HR. apply (inv_roots _ _ _ _ Hinv).
    - intros q2 Hq2. rewrite <- HE.
      destruct (inv_deref _ _ _ _ Hinv q2) as (li2 & Hd2 & Hl2); [by right|].
      exists li2. split; [|done].
      rewrite Forall_forall in Hord. specialize (Hord q2 Hq2).
      destruct (is_prefix q q2) eqn:E.
      + rewrite deref_push_below by done.
        apply is_prefix_drop in E. rewrite E, lookup_path_app, Hl in Hl2. done.
      + rewrite deref_push_other by done.
        by rewrite deref_replace_other.
    - intros q2 Hq2. destruct (inv_fresh _ _ _ _ Hinv q2) as [Hf2 Hn2]; [by right|].
      split; [|done]. simpl. rewrite HR. intros [->|Hin]%elem_of_cons; [|done].
      rewrite Forall_forall in Hord. specialize (Hord q Hq2).
      by rewrite is_prefix_refl in Hord. }
  rewrite holder_app in Hh.
  destruct (holder q D) as [x|] eqn:HhD.
  - exists ((q, li) :: replace_in_holder q new D), T.
    assert (HE : (q, li) :: replace_in_holder q new (D ++ [([], T)]) =
                 ((q, li) :: replace_in_holder q new D) ++ [([], T)]).
    { by rewrite (replace_in_holder_app_l _ _ _ _ x). }
    split; [by rewrite HE|]. split; [|split; [|done]].
    + apply Hinv'; [done | apply roots_replace_in_holder].
    + simpl. by rewrite roots_replace_in_holder.
  - exists ((q, li) :: D), (replace_at q new T).
    assert (HE : (q, li) :: replace_in_holder q new (D ++ [([], T)]) =
                 ((q, li) :: D) ++ [([], replace_at q new T)]).
    { by rewrite replace_in_holder_app_r. }
    split; [by rewrite HE|]. split; [|split; [done|]].
    + by apply Hinv'.
    + split; [done|]. simpl in Hh. injection Hh as ? ?. subst r t.
      simpl in Hrel. rewrite drop_0 in Hrel. by rewrite Hrel.
Qed.

(** ** The whole loop *)

Lemma handle_all_cons (q : path) (l : list path) (st : store) :
  handle_all (q :: l) st =
  match handle_li q st with
  | inr st' => handle_all l st'
  | inl e => (Some e, st)
  end.
Proof. reflexivity. Qed.

Lemma handle_all_app (l1 l2 : list path) (st : store) :
  handle_all (l1 ++ l2) st =
  match handle_all l1 st with
  | (None, st1) => handle_all l2 st1
  | failed => failed
  end.
Proof.
  revert st. induction l1 as [|q l1 IH]; intros st; simpl; [done|].
  destruct (handle_li q st); [done | apply IH].
Qed.

Lemma handle_all_run (content : node) (l1 R2 : list path) (D : store) (T : node) :
  document_order (l1 ++ R2) ->
  loop_inv content (l1 ++ R2) D T ->
  exists D' T',
    handle_all l1 (D ++ [([], T)]) = (None, D' ++ [([], T')])
    /\ loop_inv content R2 D' T'
    /\ (forall r, r ∈ roots D' -> r ∈ roots D \/ r ∈ l1)
    /\ (forall r, r ∈ roots D -> r ∈ roots D')
    /\ (forall q v, q ∈ roots D ->
          (forall q2, q2 ∈ l1 -> is_prefix q2 q = false) ->
          lookup_path q T = Some v -> lookup_path q T' = Some v).
Proof.
  revert D T. induction l1 as [|q l1 IH]; intros D T Hord Hinv.
  { exists D, T. simpl in *. split; [done|]. split; [done|].
    split; [by left|]. split; [done | by intros]. }
  destruct (handle_li_step content q (l1 ++ R2) D T Hord Hinv) as (li & Hl & Hstep).
  simpl in Hord. destruct Hord as [Hq Hord].
  destruct (find_checkbox li) as [[cq checkbox]|].
  - destruct Hstep as (D1 & T1 & Hh & Hinv1 & Hroots & HT).
    destruct (IH D1 T1 Hord Hinv1) as (D' & T' & Hrun & Hinv' & Hr1 & Hr2 & Htrack).
    exists D', T'. simpl. rewrite Hh. split; [done|]. split; [done|].
    split; [|split].
    + intros r Hr. destruct (Hr1 r Hr) as [Hin|Hin].
      * rewrite Hroots in Hin. apply elem_of_cons in Hin as [->|Hin];
          [right; by left | by left].
      * right. by right.
    + intros r Hr. apply Hr2. rewrite Hroots. by right.
    + intros q' v Hq' Hnot Hv. apply Htrack.
      * rewrite Hroots. by right.
      * intros q2 Hq2. apply Hnot. by right.
      * destruct (holder q D) eqn:HhD; [by subst T1|].
        destruct HT as [-> _]. rewrite lookup_replace_at_other; [done|].
        split; [apply Hnot; by left|].
        by apply (proj1 (holder_None q D) HhD).
  - apply loop_inv_tail in Hinv.
    destruct (IH D T Hord Hinv) as (D' & T' & Hrun & Hinv' & Hr1 & Hr2 & Htrack).
    exists D', T'. simpl. rewrite Hstep. split; [done|]. split; [done|].
    split; [|split]; [|done|].
    + intros r Hr. destruct (Hr1 r Hr); [by left | right; by right].
    + intros q' v Hq' Hnot Hv. apply Htrack; [done| |done].
      intros q2 Hq2. apply Hnot. by right.
Qed.

Lemma loop_inv_init (content : node) :
  loop_inv content (find_all is_li content) [] content.
Proof.
  split.
  - constructor.
  - intros q (Hq & n & Hl & _)%elem_of_find_all. exists n. split; [|done].
    unfold deref. simpl. by rewrite drop_0.
  - intros q (Hq & _)%elem_of_find_all. split; [by intros ?%elem_of_nil | done].
Qed.

(** The loop over the list items never raises, and the container stays the
    last tree of the store. *)
Lemma normalize_returns (content : node) :
  exists D T, normalize content = (None, D ++ [([], T)])
              /\ Forall (fun r => r <> []) (roots D).
Proof.
  pose proof (handle_all_run content (find_all is_li content) [] [] content) as H.
  rewrite app_nil_r in H.
  destruct (H (find_all_order _ _) (loop_inv_init content))
    as (D & T & Hrun & Hinv & _).
  exists D, T. split; [done|]. apply (inv_roots _ _ _ _ Hinv).
Qed.

Lemma document_order_split (l1 l2 : list path) (q : path) :
  document_order (l1 ++ q :: l2) ->
  document_order (q :: l2) /\ (forall r, r ∈ l1 -> is_prefix q r = false).
Proof.
  induction l1 as [|a l1 IH]; simpl.
  - intros H. split; [done | by intros r ?%elem_of_nil].
  - intros [Ha H]. destruct (IH H) as [H1 H2]. split; [done|].
    intros r [->|Hr]%elem_of_cons; [|by apply H2].
    rewrite Forall_forall in Ha. apply Ha, elem_of_app. right. by left.
Qed.

Lemma nested_in_li_intro (content : node) (r q : path) (t : node) :
  r <> [] -> r <> q -> is_prefix r q = true ->
  lookup_path r content = Some t -> is_li t = true ->
  nested_in_li content q = true.
Proof.
  intros Hr Hrq Hp Hl Ht. unfold nested_in_li. apply existsb_exists.
  apply is_prefix_drop in Hp.
  assert (Hx : drop (length r) q <> []).
  { intros E. rewrite E, app_nil_r in Hp. done. }
  assert (Hlen : length q = length r + length (drop (length r) q)).
  { rewrite Hp at 1. apply length_app. }
  exists (length r). split.
  - apply in_seq. destruct r; [done|]. destruct (drop _ q); [done|]. simpl in *. lia.
  - rewrite Hp, take_app_length, Hl. done.
Qed.

(** ** The converter *)

(** Closes a goal that asks for the result of a computation already in
    evaluated form. *)
Ltac started :=
  unfold conversions_started; simpl;
  rewrite ?List.filter_app, ?length_app; simpl; lia.

Ltac returned :=
  eexists _, _; split; [reflexivity | split; [reflexivity | split; [started | done]]].

Section ConverterFacts.

Variable open_html : pystr -> exn + node.
Variable md : node -> exn + pystr.
Variable open_w : pystr -> option exn.
Variable lower : pystr -> pystr.

Local Open Scope py_scope.

Local Opaque sanitize_filename path_join extract_title basename find_content py.

(** The content step always returns a body and writes no file. *)
Lemma convert_content_returns (base_filename : pystr) (content : option node) (w : world) :
  exists body w',
    convert_content md base_filename content w = (inr body, w')
    /\ files w' = files w
    /\ conversions_started w' = conversions_started w
    /\ (content = None -> body = []).
Proof.
  destruct content as [c|]; [|returned].
  unfold convert_content, bind, try_except, set_dom, handle_checkboxes,
    render_content, print, ret. simpl.
  destruct (handle_all _ _) as [[e|] st]; simpl;
    repeat (match goal with
            | |- context [match content_of ?s with _ => _ end] =>
                destruct (content_of s) eqn:?
            | |- context [match md ?t with _ => _ end] => destruct (md t) eqn:?
            end; simpl);
    returned.
Qed.

(** No exception leaves the conversion of a file. *)
Lemma convert_keep_html_to_md_returns (html_filepath output_dir_path : pystr) (w : world) :
  fst (convert_keep_html_to_md open_html md open_w html_filepath output_dir_path w)
  = inr tt.
Proof.
  unfold convert_keep_html_to_md.
  unfold try_except at 1. unfold bind at 1. unfold print at 1. cbv beta iota.
  unfold bind at 1. unfold read_soup.
  destruct (open_html html_filepath) as [e|soup]; simpl.
  { by destruct e. }
  unfold bind at 1.
  match goal with |- context [convert_content md ?b ?c ?w0] =>
    destruct (convert_content_returns b c w0) as (body & w1 & -> & _ & _ & _) end.
  unfold bind, write_file, print. simpl.
  destruct (open_w _) as [e|]; [by destruct e | done].
Qed.

(** It prints its first line once. *)
Lemma convert_keep_html_to_md_started (html_filepath output_dir_path : pystr) (w : world) :
  conversions_started
    (snd (convert_keep_html_to_md open_html md open_w html_filepath output_dir_path w))
  = S (conversions_started w).
Proof.
  unfold convert_keep_html_to_md.
  unfold try_except at 1. unfold bind at 1. unfold print at 1. cbv beta iota.
  unfold bind at 1. unfold read_soup.
  destruct (open_html html_filepath) as [e|soup]; simpl.
  { destruct e; started. }
  unfold bind at 1.
  match goal with |- context [convert_content md ?b ?c ?w0] =>
    destruct (convert_content_returns b c w0) as (body & w1 & -> & _ & Hs & _) end.
  assert (Hw1 : conversions_started w1 = S (conversions_started w)).
  { rewrite Hs. started. }
  unfold bind, write_file, print. simpl.
  destruct (open_w _) as [e|]; [destruct e|]; simpl; rewrite <- Hw1; started.
Qed.


(** The body does not depend on the world the content step starts in. *)
Lemma convert_content_body (base_filename : pystr) (content : option node) (w w0 : world) :
  fst (convert_content md base_filename content w)
  = fst (convert_content md base_filename content w0).
Proof.
  destruct content as [c|]; [|done].
  unfold convert_content, bind, try_except, set_dom, handle_checkboxes,
    render_content, print, ret. simpl.
  destruct (handle_all _ _) as [[e|] st]; simpl;
    repeat (match goal with
            | |- context [match content_of ?s with _ => _ end] =>
                destruct (content_of s) eqn:?
            | |- context [match md ?t with _ => _ end] => destruct (md t) eqn:?
            end; simpl);
    done.
Qed.

Local Transparent sanitize_filename path_join extract_title basename find_content py.

Lemma path_join_prefix (a b : pystr) :
  startswith [sep] b = false -> a `prefix_of` path_join a b.
Proof.
  intros H. unfold path_join. rewrite H.
  destruct (_ || _); by apply prefix_app_r.
Qed.

Lemma md_filename_relative (title : pystr) :
  startswith [sep] (sanitize_filename title ++ py ".md") = false.
Proof.
  destruct (sanitize_filename_safe title) as (Hc & Hne & _).
  destruct (sanitize_filename title) as [|c s]; [done|].
  change (((sep =? c)%N && true) = false).
  destruct (Hc c) as [Hbad _]; [by left|].
  destruct (N.eqb_spec sep c) as [<-|]; [|done].
  exfalso. apply Hbad. by apply is_invalid_spec.
Qed.

Local Opaque convert_keep_html_to_md.

(** ** The batch loop *)

(** The loop counts the matching names, starts one conversion for each, and
    leaves the error counter as it was: no conversion raises. *)
Lemma convert_each_counters (input_dir output_dir : pystr) (names : list pystr)
    (file_count conversion_errors : Z) (w : world) :
  exists w',
    convert_each open_html md open_w lower input_dir output_dir names
      file_count conversion_errors w
    = (inr ((file_count + Z.of_nat (length (List.filter (is_html_name lower) names)))%Z,
            conversion_errors), w')
    /\ conversions_started w'
       = conversions_started w + length (List.filter (is_html_name lower) names).
Proof.
  revert file_count conversion_errors w.
  induction names as [|filename names IH]; intros fc ce w.
  { exists w. simpl. unfold ret. rewrite Z.add_0_r, Nat.add_0_r. done. }
  cbn [convert_each List.filter].
  destruct (is_html_name lower filename) eqn:E;
    unfold is_html_name in E; rewrite E; [|apply IH].
  unfold bind at 1. unfold try_except at 1. unfold bind at 1.
  pose proof (convert_keep_html_to_md_returns
                (path_join input_dir filename) output_dir w) as Hr.
  pose proof (convert_keep_html_to_md_started
                (path_join input_dir filename) output_dir w) as Hs.
  destruct (convert_keep_html_to_md _ _ _ _ _ w) as [[e|[]] w1]; [done|].
  simpl in Hs. unfold ret at 1. cbv beta iota.
  destruct (IH (fc + 1)%Z ce w1) as (w' & -> & Hs').
  exists w'. cbn [length]. split; [|lia].
  do 2 f_equal. apply (f_equal (fun z => (z, ce))). lia.
Qed.

(** Names that do not match are passed over. *)
Lemma convert_each_filter (input_dir output_dir : pystr) (names : list pystr)
    (file_count conversion_errors : Z) (w : world) :
  convert_each open_html md open_w lower input_dir output_dir names
    file_count conversion_errors w
  = convert_each open_html md open_w lower input_dir output_dir
      (List.filter (is_html_name lower) names) file_count conversion_errors w.
Proof.
  revert file_count conversion_errors w.
  induction names as [|filename names IH]; intros fc ce w; [done|].
  simpl. unfold is_html_name at 1.
  destruct (endswith (py ".html") (lower filename)) eqn:E; [|apply IH].
  simpl. rewrite E. unfold bind at 1 3.
  destruct (try_except _ _ w) as [[e|ce'] w1]; [done | apply IH].
Qed.

Local Transparent convert_keep_html_to_md.

End ConverterFacts.

(** ** Check list normalisation *)

(** C6, as the code has it.  Every list item of the content container that
    holds a check box and does not lie inside another list item is replaced
    by a paragraph whose text is the marker, [- [x] ] for a checked box and
    [- [ ] ] otherwise, followed by the stripped text of the first span among
    the later siblings of the check box, or by nothing when there is no such
    span.  The loop does not raise. *)
Theorem normalize_replaces_list_items
    (content : node) (q : path) (li : node) (cq : path) (checkbox : node) :
  q <> [] ->
  lookup_path q content = Some li ->
  is_li li = true ->
  find_checkbox li = Some (cq, checkbox) ->
  nested_in_li content q = false ->
  replaced_by_paragraph (checkbox_text li cq checkbox) content q.
Proof.
  intros Hq Hl Hli Hcb Hout.
  assert (Hin : q ∈ find_all is_li content).
  { apply elem_of_find_all. eauto. }
  apply list_elem_of_split in Hin as (l1 & l2 & HL).
  pose proof (find_all_order is_li content) as Hord. rewrite HL in Hord.
  pose proof (loop_inv_init content) as Hinv. rewrite HL in Hinv.
  destruct (handle_all_run content l1 (q :: l2) [] content Hord Hinv)
    as (D1 & T1 & Hrun1 & Hinv1 & Hr1 & _ & _).
  destruct (document_order_split _ _ _ Hord) as [Hord2 Hbefore].
  destruct (handle_li_step content q l2 D1 T1 Hord2 Hinv1) as (li' & Hl' & Hstep).
  rewrite Hl in Hl'. injection Hl' as <-. rewrite Hcb in Hstep.
  destruct Hstep as (D2 & T2 & Hh & Hinv2 & Hroots & HT).
  assert (HhD : holder q D1 = None).
  { apply holder_None. intros r Hr.
    destruct (is_prefix r q) eqn:E; [|done]. exfalso.
    destruct (Hr1 r Hr) as [Hin|Hin]; [by apply elem_of_nil in Hin|].
    assert (Hrl : r ∈ find_all is_li content).
    { rewrite HL. apply elem_of_app. by left. }
    apply elem_of_find_all in Hrl as (Hrne & t & Ht & Hlit).
    assert (Hrq : r <> q).
    { intros ->. specialize (Hbefore q Hin). by rewrite is_prefix_refl in Hbefore. }
    rewrite (nested_in_li_intro content r q t) in Hout; done. }
  rewrite HhD in HT. destruct HT as [-> HT1].
  destruct Hord2 as [Hafter Hord2].
  rewrite <- (app_nil_r l2) in Hord2, Hinv2.
  destruct (handle_all_run content l2 [] D2 _ Hord2 Hinv2)
    as (D3 & T3 & Hrun3 & Hinv3 & _ & _ & Htrack).
  exists (D3 ++ [([], T3)]). split.
  - unfold normalize.
    change (find_all (is_tag (py "li")) content) with (find_all is_li content).
    rewrite HL, handle_all_app.
    simpl in Hrun1. rewrite Hrun1. cbv beta iota.
    rewrite handle_all_cons. unfold store, path in *. by rewrite Hh.
  - rewrite content_of_store by apply (inv_roots _ _ _ _ Hinv3). simpl.
    apply Htrack.
    + rewrite Hroots. by left.
    + intros q2 Hq2. rewrite Forall_forall in Hafter. by apply Hafter.
    + by apply (lookup_replace_at _ _ li).
Qed.

Lemma normalize_replaces_list_items_witness :
  replaced_by_paragraph (py "- [x] Milk") shopping_content [0; 0].
Proof.
  apply (normalize_replaces_list_items shopping_content [0; 0]
           (item true "Milk") [0]
           (el "input" [("type", "checkbox"); ("checked", "")] [])%string);
    [discriminate | reflexivity..].
Defined.

(** The check list of the shopping note: the two items become the paragraphs
    [- [x] Milk] and [- [ ] Eggs]. *)
Example shopping_normalized :
  (content_of (snd (normalize shopping_content)) =
   Some (el "div" [("class", "content")]
           [el "ul" [("class", "list")]
              [new_paragraph (py "- [x] Milk"); new_paragraph (py "- [ ] Eggs")]])%string).
Proof. vm_compute. reflexivity. Qed.

(** C6 as the specification words it fails on [nested_content]: the
    paragraph that replaces the outer item carries the text of the span, not
    of the bold element that follows the check box, and the inner item is
    gone with the outer one instead of being replaced. *)
Lemma spec_normalization_counterexample :
  (content_of (snd (normalize nested_content)) ≫= lookup_path [0; 0]
     = Some (new_paragraph (py "- [ ] Milk")))
  /\ (content_of (snd (normalize nested_content)) ≫= lookup_path [0; 0; 3; 0]
     = None)
  /\ ~ spec_normalization nested_content.
Proof.
  split; [vm_compute; reflexivity|]. split; [vm_compute; reflexivity|].
  intros H.
  destruct (H [0; 0]
              (el "li" []
                 [el "input" [("type", "checkbox")] [];
                  el "b" [] [txt "x"];
                  el "span" [] [txt "Milk"];
                  el "ul" [] [item true "Eggs"]])%string
              [0] (el "input" [("type", "checkbox")] [])%string)
    as (st & Hst & Hp); [discriminate | reflexivity..|].
  vm_compute in Hst. injection Hst as <-. vm_compute in Hp. discriminate.
Qed.

(** ** Conversion of one file *)

Local Opaque sanitize_filename path_join extract_title basename find_content py.

(** C7.  When the source file is read and parsed and the output file can be
    written, the conversion returns without an exception, reports success,
    and the file at the join of the output directory it was given with the
    sanitised title and the extension .md holds the heading line, an empty
    line and the body; that path lies under the output directory.  The body
    is the result of the content step, and it is empty when the document has
    no content container. *)
Theorem convert_keep_html_to_md_writes
    (open_html : pystr -> exn + node) (md : node -> exn + pystr)
    (open_w : pystr -> option exn)
    (html_filepath output_dir_path : pystr) (w : world) (soup : node) :
  let base_filename := basename html_filepath in
  let title := extract_title soup base_filename in
  let md_filename := sanitize_filename title ++ py ".md" in
  let full_md_path := path_join output_dir_path md_filename in
  open_html html_filepath = inr soup ->
  open_w full_md_path = None ->
  exists body w',
    convert_keep_html_to_md open_html md open_w html_filepath output_dir_path w
      = (inr tt, w')
    /\ files w' = <[full_md_path := py "# " ++ title ++ [newline; newline] ++ body]> (files w)
    /\ last (printed w') = Some (Converted md_filename)
    /\ output_dir_path `prefix_of` full_md_path
    /\ fst (convert_content md base_filename (find_content soup) empty_world) = inr body
    /\ (find_content soup = None -> body = []).
Proof.
  intros base_filename title md_filename full_md_path Hread Hwrite.
  unfold convert_keep_html_to_md.
  unfold try_except at 1. unfold bind at 1. unfold print at 1. cbv beta iota.
  unfold bind at 1. unfold read_soup. rewrite Hread. unfold ret at 1.
  cbv beta iota. unfold bind at 1.
  fold base_filename. fold title. fold md_filename. fold full_md_path.
  match goal with |- context [convert_content md ?b ?c ?w0] =>
    pose proof (convert_content_body md b c w0 empty_world) as Hbody;
    destruct (convert_content_returns md b c w0) as (body & w1 & Hc & Hfiles & _ & Hnone)
  end.
  rewrite Hc in Hbody |- *. simpl in Hbody.
  unfold bind, write_file, print. rewrite Hwrite. simpl.
  eexists body, _. split; [reflexivity|]. simpl.
  split; [by rewrite Hfiles|]. split; [by rewrite last_snoc|].
  split; [apply path_join_prefix, md_filename_relative|]. done.
Qed.

Local Transparent sanitize_filename path_join extract_title basename find_content py.

Lemma convert_keep_html_to_md_writes_witness :
  open_as title_only (py "notes/ideas.html") = inr title_only
  /\ no_write_error (py "notes/converted files/Ideas.md") = None
  /\ exists body w',
       convert_keep_html_to_md (open_as title_only) md_text no_write_error
         (py "notes/ideas.html") (py "notes/converted files") empty_world
       = (inr tt, w')
       /\ files w' = <[py "notes/converted files/Ideas.md" :=
                       py "# " ++ py "Ideas" ++ [newline; newline] ++ body]> ∅
       /\ last (printed w') = Some (Converted (py "Ideas.md"))
       /\ py "notes/converted files" `prefix_of` py "notes/converted files/Ideas.md"
       /\ fst (convert_content md_text (py "ideas.html") None empty_world) = inr body
       /\ (@None node = None -> body = []).
Proof.
  split; [reflexivity|]. split; [reflexivity|].
  apply (convert_keep_html_to_md_writes (open_as title_only) md_text
           no_write_error (py "notes/ideas.html") (py "notes/converted files")
           empty_world title_only); reflexivity.
Defined.

(** The shopping note: the file is named after the title and starts with the
    heading line. *)
Example shopping_converted :
  files (snd (convert_keep_html_to_md (open_as shopping) md_text no_write_error
                (py "notes/shopping.html") (py "notes/converted files") empty_world))
  !! py "notes/converted files/Shopping List.md"
  = Some (py "# Shopping List" ++ [newline; newline] ++ py "- [x] Milk- [ ] Eggs").
Proof. vm_compute. reflexivity. Qed.

(** ** The fallback after a failure in the content step *)

(** Whatever the renderer, when it raises on the container as the loop left
    it, the second attempt is made on that same tree, raises again, and the
    body is the marker. *)
Lemma convert_content_fallback (md : node -> exn + pystr) (base_filename : pystr)
    (content_tag T : node) (e : exn) (w : world) :
  content_of (snd (normalize content_tag)) = Some T ->
  md T = inl e ->
  fst (convert_content md base_filename (Some content_tag) w)
    = inr (py "[Content Conversion Failed]")
  /\ rendered (snd (convert_content md base_filename (Some content_tag) w))
    = rendered w ++ [T; T].
Proof.
  intros HT He.
  destruct (normalize_returns content_tag) as (D & T' & Hn & HD).
  rewrite Hn in HT. simpl in HT. rewrite content_of_store in HT by done.
  injection HT as ->.
  unfold convert_content, bind, try_except, set_dom, handle_checkboxes,
    render_content, print, ret. simpl.
  unfold normalize in Hn. rewrite Hn. simpl.
  rewrite !content_of_store by done. simpl. rewrite He. simpl.
  rewrite !content_of_store by done. simpl. rewrite He. simpl.
  by rewrite <- app_assoc.
Qed.

(** C4, on the code.  The shopping note with a renderer that raises: both
    attempts are made on the container with the list items already replaced,
    which is not the container as parsed; the raw fallback fails too and the
    file holds the marker instead of the content. *)
Theorem fallback_renders_replaced_content :
  let w := snd (convert_keep_html_to_md (open_as shopping) md_fails no_write_error
                  (py "notes/shopping.html") (py "notes/converted files") empty_world) in
  rendered w = [shopping_replaced; shopping_replaced]
  /\ shopping_replaced <> shopping_content
  /\ printed w = [Processing (py "shopping.html");
                  WarningContent (py "shopping.html") (Exception "RecursionError");
                  ErrorRawContent (py "shopping.html") (Exception "RecursionError");
                  Converted (py "Shopping List.md")]
  /\ files w !! py "notes/converted files/Shopping List.md"
     = Some (py "# Shopping List" ++ [newline; newline] ++ py "[Content Conversion Failed]").
Proof.
  split; [vm_compute; reflexivity|]. split; [discriminate|].
  split; vm_compute; reflexivity.
Qed.

(** ** The title *)

(** C8, as the code has it.  The title is never empty.  With a title
    container it is the stripped text of the container, or the literal when
    that text is empty; without one it is the stem of the file name, or the
    literal when the stem is empty. *)
Theorem extract_title_cases (soup : node) (base_filename : pystr) :
  extract_title soup base_filename <> []
  /\ extract_title soup base_filename =
     match find_div (py "title") soup with
     | Some title_tag =>
         if bool_decide (get_text_strip title_tag = []) then py "Untitled Note"
         else get_text_strip title_tag
     | None =>
         if bool_decide (fst (splitext base_filename) = []) then py "Untitled Note"
         else fst (splitext base_filename)
     end.
Proof.
  unfold extract_title. destruct (find_div (py "title") soup) as [t|].
  - split; [|done]. by case_bool_decide.
  - split; [|done]. by case_bool_decide.
Qed.

(** C8 as worded fails on a note whose title container holds only white
    space: the code yields the literal, not the stem of the file name. *)
Lemma spec_title_counterexample :
  extract_title empty_title (py "note42.html") = py "Untitled Note"
  /\ spec_title empty_title (py "note42.html") = py "note42"
  /\ extract_title empty_title (py "note42.html")
     <> spec_title empty_title (py "note42.html").
Proof.
  split; [vm_compute; reflexivity|]. split; [vm_compute; reflexivity|].
  vm_compute. discriminate.
Qed.

(** Without a title container the stem of the file name is the title. *)
Example title_from_filename :
  extract_title (note [] [shopping_content]) (py "note42.html") = py "note42".
Proof. vm_compute. reflexivity. Qed.

(** ** The batch *)

(** C9.  When a directory was chosen, the output directory could be made and
    the directory lists [names], the loop starts a conversion for each of
    the N names that end in .html once lower-cased and for no other: its
    result is that of the loop over those N names alone, N lines announce a
    conversion, the counter of attempted files ends at N, and the summary
    is printed for N (the line with the count when N is not 0, the line
    that no HTML file was found otherwise). *)
Theorem main_attempts_html_entries
    (open_html : pystr -> exn + node) (md : node -> exn + pystr)
    (open_w : pystr -> option exn) (lower : pystr -> pystr)
    (askdirectory : pystr) (makedirs : pystr -> option exn)
    (listdir : pystr -> exn + list pystr) (names : list pystr) (w : world) :
  let output_dir := path_join askdirectory (py "converted files") in
  let matching := List.filter (is_html_name lower) names in
  let others := List.filter (fun n => negb (is_html_name lower n)) names in
  let N := length matching in
  askdirectory <> [] ->
  makedirs output_dir = None ->
  listdir askdirectory = inr names ->
  exists w0 w1 conversion_errors,
    convert_each open_html md open_w lower askdirectory output_dir names 0 0 w0
      = (inr (Z.of_nat N, conversion_errors), w1)
    /\ convert_each open_html md open_w lower askdirectory output_dir names 0 0 w0
      = convert_each open_html md open_w lower askdirectory output_dir matching 0 0 w0
    /\ conversions_started w0 = conversions_started w
    /\ conversions_started w1 = conversions_started w + N
    /\ length names = N + length others
    /\ main open_html md open_w lower askdirectory makedirs listdir w
      = print_summary output_dir (Z.of_nat N) conversion_errors w1
    /\ (if bool_decide (N = 0) then NoHtmlFiles else Attempted (Z.of_nat N))
         ∈ printed (snd (main open_html md open_w lower askdirectory makedirs listdir w)).
Proof.
  intros output_dir matching others N Hdir Hmk Hls.
  set (w0 := World (files w)
               (printed w ++ [PleaseSelect; SelectedFolder askdirectory;
                              OutputSavedIn output_dir; Starting])
               (dom w) (rendered w)).
  destruct (convert_each_counters open_html md open_w lower askdirectory output_dir
              names 0 0 w0) as (w1 & Hrun & Hs).
  exists w0, w1, 0%Z. fold matching N in Hrun, Hs. rewrite Z.add_0_l in Hrun.
  assert (Hmain : main open_html md open_w lower askdirectory makedirs listdir w
                  = print_summary output_dir (Z.of_nat N) 0 w1).
  { unfold main. unfold bind at 1. unfold print at 1. cbv beta iota.
    case_bool_decide; [done|].
    unfold bind at 1. unfold print at 1. cbv beta iota zeta.
    fold output_dir. rewrite Hmk, Hls.
    unfold bind at 1. unfold print at 1. cbv beta iota.
    unfold bind at 1. unfold print at 1. cbv beta iota.
    unfold bind at 1. unfold ret at 1. cbv beta iota.
    unfold bind at 1.
    replace (World _ _ _ _) with w0.
    - by rewrite Hrun.
    - unfold w0. simpl. by rewrite <- !app_assoc. }
  split; [done|]. split; [apply convert_each_filter|].
  split; [unfold w0; started|]. split.
  { rewrite Hs. f_equal. unfold w0. started. }
  split.
  { unfold N, matching, others. clear. induction names as [|n names IH]; [done|].
    simpl. destruct (is_html_name lower n); simpl; lia. }
  split; [done|]. rewrite Hmain.
  unfold print_summary, bind, print, ret. simpl.
  case_bool_decide as HN0.
  - rewrite bool_decide_true by lia. simpl. set_solver.
  - rewrite bool_decide_false by lia. simpl. set_solver.
Qed.

Lemma main_attempts_html_entries_witness :
  py "notes" <> []
  /\ no_makedirs_error (path_join (py "notes") (py "converted files")) = None
  /\ listdir_as listing (py "notes") = inr listing
  /\ Attempted 2
       ∈ printed (snd (main (open_as shopping) md_text no_write_error ascii_lower
                         (py "notes") no_makedirs_error (listdir_as listing)
                         empty_world)).
Proof.
  split; [discriminate|]. split; [reflexivity|]. split; [reflexivity|].
  destruct (main_attempts_html_entries (open_as shopping) md_text no_write_error
              ascii_lower (py "notes") no_makedirs_error (listdir_as listing)
              listing empty_world)
    as (w0 & w1 & ce & _ & _ & _ & _ & _ & _ & H);
    [discriminate | reflexivity | reflexivity | exact H].
Defined.

(** C5, on the code.  A directory whose only note cannot be opened: the
    failure is printed by the conversion itself, which returns normally, so
    the loop counts no error and the summary reports one attempted file and
    one successful conversion. *)
Theorem missing_file_counted_as_success :
  let r := main open_missing md_text no_write_error ascii_lower (py "notes")
             no_makedirs_error (listdir_as [py "a.html"]) empty_world in
  fst r = inr tt
  /\ printed (snd r)
     = [PleaseSelect; SelectedFolder (py "notes");
        OutputSavedIn (py "notes/converted files"); Starting;
        Processing (py "a.html"); ErrorNotFound (py "notes/a.html");
        SummaryHeader; Attempted 1; Successful 1;
        CheckFolder (py "converted files")]
  /\ convert_each open_missing md_text no_write_error ascii_lower (py "notes")
       (py "notes/converted files") [py "a.html"] 0 0 empty_world
     = (inr (1%Z, 0%Z),
        World ∅ [Processing (py "a.html"); ErrorNotFound (py "notes/a.html")] [] []).
Proof. repeat split; vm_compute; reflexivity. Qed.

(** ** The filename sanitiser on its inputs *)

Lemma is_sanitized_form_spec (x : pystr) :
  is_sanitized_form x = true -> sanitized_form x.
Proof.
  unfold is_sanitized_form. rewrite !andb_true_iff.
  intros [[[[Hne Hlen] Hclean] Hsp] Hdot].
  assert (Hends : forall p, ends_free_b p x = true -> ends_free p x).
  { intros p. unfold ends_free_b, ends_free. rewrite andb_true_iff.
    intros [Hh Hl]. split; intros c Hc; rewrite Hc in *; simpl in *;
      by destruct (p c). }
  split.
  - apply negb_true_iff, bool_decide_eq_false in Hne. done.
  - by apply bool_decide_eq_true in Hlen.
  - intros c Hc. rewrite forallb_forall in Hclean.
    specialize (Hclean c (proj1 (list_elem_of_In _ _) Hc)).
    apply andb_true_iff in Hclean as [H1 H2].
    apply clean_char_intro; by apply negb_true_iff.
  - by apply Hends.
  - by apply Hends.
Qed.

(** C10.  A name already in sanitised form (not empty, at most 200
    characters, none of the nine characters and no plus sign, neither white
    space nor a dot at either end) is returned unchanged. *)
Theorem sanitize_filename_fixes_sanitized (x : pystr) :
  is_sanitized_form x = true -> sanitize_filename x = x.
Proof.
  intros H%is_sanitized_form_spec.
  rewrite sanitize_filename_unfold. unfold named.
  rewrite (trimmed_id x H).
  destruct H as [Hne Hlen _ _ [Hd _]].
  rewrite (bool_decide_false (x = [])) by done.
  destruct x as [|c x]; [done|].
  cbn [forallb orb]. rewrite (Hd c eq_refl). cbn [andb].
  by rewrite bool_decide_false by lia.
Qed.

Lemma sanitize_filename_fixes_sanitized_witness :
  is_sanitized_form (py "Shopping List") = true
  /\ sanitize_filename (py "Shopping List") = py "Shopping List".
Proof.
  split; [reflexivity|].
  apply (sanitize_filename_fixes_sanitized (py "Shopping List")). reflexivity.
Defined.

(** C1, on the code.  The title [... and more] is stripped of white space
    first and of dots afterwards, so the result starts with the space that
    followed the dots; a name cut at 200 characters can end in a dot. *)
Theorem sanitize_filename_leaves_space :
  sanitize_filename (py "... and more") = py " and more"
  /\ (head (sanitize_filename (py "... and more")) ≫= (fun c => Some (isspace c)))
     = Some true
  /\ (last (sanitize_filename (repeat (chr "a") 199 ++ py ".b"))
        ≫= (fun c => Some (is_dot c))) = Some true.
Proof. repeat split; vm_compute; reflexivity. Qed.

(** C2, on the code.  Sanitising the result for [... and more] again strips
    the space the first pass left, so the second result differs from the
    first. *)
Theorem sanitize_filename_not_idempotent :
  sanitize_filename (py "... and more") = py " and more"
  /\ sanitize_filename (sanitize_filename (py "... and more")) = py "and more"
  /\ sanitize_filename (sanitize_filename (py "... and more"))
     <> sanitize_filename (py "... and more").
Proof.
  split; [vm_compute; reflexivity|]. split; [vm_compute; reflexivity|].
  vm_compute. discriminate.
Qed.

(** C3, on the code.  The empty string and the string of three dots give
    the literal; in [My Note: Plan+B] the colon is deleted by the regular
    expression before the replacement of colons runs, so no underscore
    stands for it. *)
Theorem sanitize_filename_examples :
  sanitize_filename (py "") = py "Untitled Note"
  /\ sanitize_filename (py "...") = py "Untitled Note"
  /\ sanitize_filename (py "My Note: Plan+B") = py "My Note Plan_B"
  /\ sanitize_filename (py "My Note: Plan+B") <> py "My Note_ Plan_B".
Proof.
  split; [vm_compute; reflexivity|]. split; [vm_compute; reflexivity|].
  split; [vm_compute; reflexivity|]. vm_compute. discriminate.
Qed.

(** * Further properties *)

(** ** The sanitiser *)

Lemma lstrip_length (p : char -> bool) (s : pystr) : length (lstrip p s) <= length s.
Proof. apply suffix_length, lstrip_suffix. Qed.

Lemma rstrip_length (p : char -> bool) (s : pystr) : length (rstrip p s) <= length s.
Proof. apply prefix_length, rstrip_prefix. Qed.

Lemma strip_with_length (p : char -> bool) (s : pystr) :
  length (strip_with p s) <= length s.
Proof.
  unfold strip_with. etrans; [apply rstrip_length | apply lstrip_length].
Qed.

Lemma rstrip_head (p : char -> bool) (s : pystr) (c : char) :
  head (rstrip p s) = Some c -> head s = Some c.
Proof.
  destruct (rstrip_prefix p s) as [k Hk].
  destruct (rstrip p s) as [|a r] eqn:E; [done|].
  rewrite Hk. done.
Qed.

Lemma strip_with_ends (p : char -> bool) (s : pystr) : ends_free p (strip_with p s).
Proof.
  unfold strip_with. split; intros c Hc.
  - apply rstrip_head in Hc. by apply lstrip_head in Hc.
  - by apply rstrip_last in Hc.
Qed.

Lemma lstrip_all (p : char -> bool) (s : pystr) :
  forallb p s = true -> lstrip p s = [].
Proof.
  induction s as [|c s IH]; simpl; [done|].
  intros [-> H]%andb_prop. by apply IH.
Qed.

Lemma re_sub_invalid_length (x : pystr) : length (re_sub_invalid x) <= length x.
Proof.
  unfold re_sub_invalid. induction x as [|c x IH]; simpl; [done|].
  destruct (negb (is_invalid c)); simpl; lia.
Qed.

Lemma trimmed_length (x : pystr) : length (trimmed x) <= length x.
Proof.
  unfold trimmed, strip_chars, strip.
  etrans; [apply strip_with_length|]. etrans; [apply strip_with_length|].
  unfold replace. rewrite !length_map. apply re_sub_invalid_length.
Qed.

Lemma named_length (x : pystr) : length x <= max_len -> length (named x) <= max_len.
Proof.
  intros H. unfold named. destruct (_ || _).
  - vm_compute. lia.
  - etrans; [apply trimmed_length | done].
Qed.

Lemma trimmed_ends_dot (x : pystr) : ends_free is_dot (trimmed x).
Proof. unfold trimmed. rewrite strip_chars_dot. apply strip_with_ends. Qed.

Lemma named_ends_dot (x : pystr) : ends_free is_dot (named x).
Proof.
  unfold named. destruct (_ || _); [|apply trimmed_ends_dot].
  split; intros c; vm_compute; by intros [= <-].
Qed.

Lemma head_take (n : nat) (s : pystr) : head (take (S n) s) = head s.
Proof. by destruct s. Qed.

(** The result never starts with a dot, whatever the input; and it does not
    end with one when the input has at most 200 characters. *)
Theorem sanitize_filename_dots (x : pystr) :
  (forall c, head (sanitize_filename x) = Some c -> is_dot c = false)
  /\ (length x <= max_len ->
      forall c, last (sanitize_filename x) = Some c -> is_dot c = false).
Proof.
  rewrite sanitize_filename_unfold.
  destruct (named_ends_dot x) as [Hh Hl]. split.
  - case_bool_decide; [|done]. unfold max_len. by rewrite head_take.
  - intros Hlen. apply named_length in Hlen.
    by rewrite bool_decide_false by lia.
Qed.

Lemma sanitize_filename_dots_witness :
  length (py "..notes.") <= max_len
  /\ (forall c, last (sanitize_filename (py "..notes.")) = Some c -> is_dot c = false).
Proof.
  split; [vm_compute; lia|].
  apply (sanitize_filename_dots (py "..notes.")). vm_compute. lia.
Defined.

(** For every input the result holds none of the nine characters of the
    regular expression and no plus sign, is not empty, and has at most 200
    characters. *)
Theorem sanitize_filename_result_safe (x : pystr) :
  forallb (fun c => negb (is_invalid c) && negb (c =? chr "+")%N)
          (sanitize_filename x) = true
  /\ sanitize_filename x <> []
  /\ length (sanitize_filename x) <= 200.
Proof.
  destruct (sanitize_filename_safe x) as (Hc & Hne & Hlen).
  split; [|done]. apply forallb_forall. intros c Hin%list_elem_of_In.
  destruct (Hc c Hin) as [H1 H2]. apply andb_true_iff. split.
  - apply negb_true_iff. destruct (is_invalid c) eqn:E; [|done].
    by apply is_invalid_spec in E.
  - by apply negb_true_iff, N.eqb_neq.
Qed.

Lemma ends_free_b_spec (p : char -> bool) (x : pystr) :
  ends_free_b p x = true <-> ends_free p x.
Proof.
  unfold ends_free_b, ends_free. rewrite andb_true_iff, !negb_true_iff. split.
  - intros [Hh Hl]. split; intros c Hc; rewrite Hc in *; done.
  - intros [Hh Hl]. split.
    + destruct (head x) as [c|]; [by apply Hh | done].
    + destruct (last x) as [c|]; [by apply Hl | done].
Qed.

Lemma clean_forallb (x : pystr) :
  forallb (fun c => negb (is_invalid c) && negb (c =? chr "+")%N) x = true <->
  (forall c, c ∈ x -> clean_char c).
Proof.
  rewrite forallb_forall. split.
  - intros H c Hc%list_elem_of_In. specialize (H c Hc).
    apply andb_true_iff in H as [H1 H2]. apply clean_char_intro; by apply negb_true_iff.
  - intros H c Hc%list_elem_of_In. destruct (H c Hc) as [H1 H2].
    apply andb_true_iff. split; apply negb_true_iff.
    + destruct (is_invalid c) eqn:E; [|done]. by apply is_invalid_spec in E.
    + by apply N.eqb_neq.
Qed.

(** The part of the sanitiser before the fallback keeps a clean name with
    free ends as it is, whatever its length. *)
Lemma trimmed_fixes (x : pystr) :
  (forall c, c ∈ x -> clean_char c) ->
  ends_free isspace x -> ends_free is_dot x -> trimmed x = x.
Proof.
  intros Hc [Hs1 Hs2] [Hd1 Hd2]. unfold trimmed.
  rewrite re_sub_invalid_id by (intros c Hin; apply (Hc c Hin)).
  rewrite (replace_absent (chr ":")).
  2:{ intros Hin. destruct (Hc _ Hin) as [Hbad _]. apply Hbad.
      by apply is_invalid_spec. }
  rewrite (replace_absent (chr "+")).
  2:{ intros Hin. by destruct (Hc _ Hin) as [_ Hbad]. }
  unfold strip. rewrite strip_with_id by done.
  rewrite strip_chars_dot. by apply strip_with_id.
Qed.

(** A name that is not empty, holds no character the sanitiser deletes or
    replaces and has neither white space nor a dot at either end is cut to
    its first 200 characters and not changed otherwise. *)
Theorem sanitize_filename_truncates (x : pystr) :
  is_clean_trimmed x = true -> sanitize_filename x = take max_len x.
Proof.
  unfold is_clean_trimmed. rewrite !andb_true_iff.
  intros [[[Hne Hc] Hs] Hd].
  apply negb_true_iff, bool_decide_eq_false in Hne.
  pose proof (proj1 (clean_forallb x) Hc) as Hc'.
  pose proof (proj1 (ends_free_b_spec _ x) Hs) as Hs'.
  pose proof (proj1 (ends_free_b_spec _ x) Hd) as Hd'.
  clear Hc Hs Hd. rename Hc' into Hc, Hs' into Hs, Hd' into Hd.
  rewrite sanitize_filename_unfold. unfold named.
  rewrite (trimmed_fixes x Hc Hs Hd).
  rewrite (bool_decide_false (x = [])) by done.
  destruct Hd as [Hd _].
  destruct x as [|c x]; [done|].
  cbn [forallb orb]. rewrite (Hd c eq_refl). cbn [andb].
  case_bool_decide as Hlen; [done|]. rewrite take_ge; [done|lia].
Qed.

Lemma sanitize_filename_truncates_witness :
  is_clean_trimmed (repeat (chr "a") 250) = true
  /\ sanitize_filename (repeat (chr "a") 250) = take max_len (repeat (chr "a") 250).
Proof.
  split; [vm_compute; reflexivity|].
  apply (sanitize_filename_truncates (repeat (chr "a") 250)).
  vm_compute. reflexivity.
Defined.

(** A title made only of characters the regular expression deletes and of
    white space gives the literal name. *)
Theorem sanitize_filename_untitled (x : pystr) :
  only_deleted_or_space x = true -> sanitize_filename x = py "Untitled Note".
Proof.
  intros H. rewrite sanitize_filename_unfold.
  assert (Ht : trimmed x = []).
  { unfold trimmed, strip, strip_with.
    rewrite (lstrip_all isspace); [done|].
    unfold only_deleted_or_space in H. unfold re_sub_invalid, replace.
    induction x as [|c x IH]; [done|].
    simpl in H. apply andb_true_iff in H as [Hc Hx].
    cbn [List.filter]. destruct (is_invalid c) eqn:E; cbn [negb]; [by apply IH|].
    cbn [map forallb]. rewrite IH by done. rewrite andb_true_r.
    simpl in Hc.
    destruct (N.eqb_spec c (chr ":")) as [->|]; [done|].
    destruct (N.eqb_spec c (chr "+")) as [->|]; [done|].
    done. }
  unfold named. rewrite Ht. vm_compute. reflexivity.
Qed.

Lemma sanitize_filename_untitled_witness :
  only_deleted_or_space (py " ?? / ") = true
  /\ sanitize_filename (py " ?? / ") = py "Untitled Note".
Proof.
  split; [reflexivity|]. apply (sanitize_filename_untitled (py " ?? / ")). reflexivity.
Defined.

Lemma sanitized_form_test (x : pystr) : sanitized_form x -> is_sanitized_form x = true.
Proof.
  intros [Hne Hlen Hc Hs Hd]. unfold is_sanitized_form.
  rewrite !andb_true_iff. repeat split.
  - by apply negb_true_iff, bool_decide_eq_false.
  - by apply bool_decide_eq_true.
  - by apply clean_forallb.
  - by apply ends_free_b_spec.
  - by apply ends_free_b_spec.
Qed.

Lemma sanitize_filename_id (x : pystr) : sanitized_form x -> sanitize_filename x = x.
Proof.
  intros [Hne Hlen Hc Hs Hd].
  rewrite sanitize_filename_unfold. unfold named.
  rewrite (trimmed_fixes x Hc Hs Hd).
  rewrite (bool_decide_false (x = [])) by done.
  destruct Hd as [Hd _]. destruct x as [|c x]; [done|].
  cbn [forallb orb]. rewrite (Hd c eq_refl). cbn [andb].
  by rewrite bool_decide_false by lia.
Qed.

Lemma dot_free_spec (x : pystr) :
  dot_free x = true <-> (forall c, c ∈ x -> is_dot c = false).
Proof.
  unfold dot_free. rewrite forallb_forall. split.
  - intros H c Hc%list_elem_of_In. by apply negb_true_iff, H.
  - intros H c Hc%list_elem_of_In. by apply negb_true_iff, H.
Qed.

Lemma ends_free_of_all (p : char -> bool) (x : pystr) :
  (forall c, c ∈ x -> p c = false) -> ends_free p x.
Proof.
  intros H. split; intros c Hc; apply H.
  - destruct x; [done|]. injection Hc as ->. by left.
  - by apply last_Some_elem_of.
Qed.

(** Without dots in the input, the second strip has nothing to remove. *)
Lemma trimmed_dot_free (x : pystr) :
  dot_free x = true ->
  (forall c, c ∈ trimmed x -> is_dot c = false) /\ ends_free isspace (trimmed x).
Proof.
  intros Hx0. pose proof (proj1 (dot_free_spec x) Hx0) as Hx. clear Hx0.
  set (s := strip (replace (chr "+") (chr "_")
                     (replace (chr ":") (chr "_") (re_sub_invalid x)))).
  assert (Hs : forall c, c ∈ s -> is_dot c = false).
  { intros c Hc. unfold s, strip in Hc. apply strip_with_subseteq in Hc.
    apply elem_of_replace in Hc as [->|[Hc _]]; [done|].
    apply elem_of_replace in Hc as [->|[Hc _]]; [done|].
    apply list_elem_of_In, filter_In in Hc as [Hc _].
    by apply Hx, list_elem_of_In. }
  assert (Ht : trimmed x = s).
  { unfold trimmed. fold s. rewrite strip_chars_dot.
    destruct (ends_free_of_all is_dot s Hs) as [H1 H2]. by apply strip_with_id. }
  rewrite Ht. split; [done|]. apply strip_with_ends.
Qed.

Lemma sanitize_filename_dot_free_form (x : pystr) :
  dot_free x = true -> length x <= max_len -> sanitized_form (sanitize_filename x).
Proof.
  intros Hx Hlen.
  destruct (sanitize_filename_safe x) as (Hc & Hne & Hl).
  split; [done..|idtac|idtac].
  - rewrite sanitize_filename_unfold.
    rewrite bool_decide_false by (pose proof (named_length x Hlen); lia).
    unfold named. destruct (_ || _).
    + split; intros c; vm_compute; by intros [= <-].
    + by apply trimmed_dot_free.
  - rewrite sanitize_filename_unfold.
    rewrite bool_decide_false by (pose proof (named_length x Hlen); lia).
    apply named_ends_dot.
Qed.

(** For an input without dots and of at most 200 characters the result is
    in sanitised form: besides what holds for every input, it has neither
    white space nor a dot at either end. *)
Theorem sanitize_filename_form_without_dots (x : pystr) :
  dot_free x = true -> length x <= max_len ->
  is_sanitized_form (sanitize_filename x) = true.
Proof.
  intros Hx Hlen. by apply sanitized_form_test, sanitize_filename_dot_free_form.
Qed.

Lemma sanitize_filename_form_without_dots_witness :
  dot_free (py "  Plan: A+B  ") = true
  /\ length (py "  Plan: A+B  ") <= max_len
  /\ is_sanitized_form (sanitize_filename (py "  Plan: A+B  ")) = true.
Proof.
  split; [reflexivity|]. split; [vm_compute; lia|].
  apply (sanitize_filename_form_without_dots (py "  Plan: A+B  "));
    [reflexivity | vm_compute; lia].
Defined.

(** On inputs without dots and of at most 200 characters the sanitiser is
    idempotent. *)
Theorem sanitize_filename_idempotent_without_dots (x : pystr) :
  dot_free x = true -> length x <= max_len ->
  sanitize_filename (sanitize_filename x) = sanitize_filename x.
Proof.
  intros Hx Hlen. by apply sanitize_filename_id, sanitize_filename_dot_free_form.
Qed.

Lemma sanitize_filename_idempotent_without_dots_witness :
  dot_free (py "  Plan: A+B  ") = true
  /\ length (py "  Plan: A+B  ") <= max_len
  /\ sanitize_filename (sanitize_filename (py "  Plan: A+B  "))
     = sanitize_filename (py "  Plan: A+B  ").
Proof.
  split; [reflexivity|]. split; [vm_compute; lia|].
  apply (sanitize_filename_idempotent_without_dots (py "  Plan: A+B  "));
    [reflexivity | vm_compute; lia].
Defined.

(** ** The text of a tag *)

Lemma stripped_ends (l : list pystr) :
  Forall (fun s => s <> [] /\ ends_free isspace s) l -> ends_free isspace (concat l).
Proof.
  induction 1 as [|s l [Hne [Hh Hl]] Hrest IH]; [done|].
  destruct IH as [IHh IHl]. simpl. split; intros c Hc.
  - destruct s as [|a s]; [done|]. simpl in Hc. by apply Hh.
  - rewrite last_app in Hc. destruct (last (concat l)) as [b|] eqn:E.
    + by apply IHl.
    + by apply Hl.
Qed.

(** The text that [get_text(strip=True)] returns for a tag, used for the
    title and for the labels of the check list, neither starts nor ends with
    white space. *)
Theorem get_text_strip_ends (t : node) :
  ends_free_b isspace (get_text_strip t) = true.
Proof.
  apply ends_free_b_spec. unfold get_text_strip. apply stripped_ends.
  apply Forall_forall. intros s Hs%list_elem_of_In%filter_In. destruct Hs as [Hin Hne].
  split.
  - apply negb_true_iff, bool_decide_eq_false in Hne. done.
  - apply in_map_iff in Hin as (s0 & <- & _). apply strip_with_ends.
Qed.

(** ** The loop over the list items *)

(** The loop never raises: every list item still has a parent when its turn
    comes, also one that lies in a list item replaced before. *)
Theorem normalize_never_raises (content : node) : fst (normalize content) = None.
Proof. destruct (normalize_returns content) as (D & T & -> & _). done. Qed.

Lemma find_first_None (p : node -> bool) (t : node) :
  find_first p t = None <-> (forall q n, q <> [] -> lookup_path q t = Some n -> p n = false).
Proof.
  unfold find_first. split.
  - intros H q n Hq Hl.
    apply (find_none _ _ H (q, n)), list_elem_of_In. by apply lookup_descendants.
  - intros H. destruct (List.find _ _) as [[q n]|] eqn:E; [|done].
    apply find_some in E as [Hin Hp]. apply list_elem_of_In in Hin. simpl in Hp.
    rewrite (H q n) in Hp; [done | by eapply descendants_nonempty
                                  | by apply descendants_lookup].
Qed.

Lemma find_first_None_below (p : node -> bool) (t : node) (q : path) (n : node) :
  find_first p t = None -> lookup_path q t = Some n -> find_first p n = None.
Proof.
  intros H Hl. apply find_first_None. intros x m Hx Hm.
  apply (proj1 (find_first_None p t) H (q ++ x)).
  - by destruct q.
  - by rewrite lookup_path_app, Hl.
Qed.

Lemma handle_all_unchanged (content : node) (l : list path) :
  (forall q, q ∈ l -> exists li, lookup_path q content = Some li
                                 /\ find_checkbox li = None) ->
  handle_all l [([], content)] = (None, [([], content)]).
Proof.
  induction l as [|q l IH]; intros H; [done|].
  rewrite handle_all_cons.
  destruct (H q) as (li & Hl & Hc); [by left|].
  unfold handle_li, deref. simpl. rewrite drop_0, Hl, Hc.
  apply IH. intros q' Hq'. apply H. by right.
Qed.

(** A content container without a check box is left as it is: no list item
    is replaced or detached. *)
Theorem normalize_without_checkbox (content : node) :
  find_checkbox content = None -> normalize content = (None, [([], content)]).
Proof.
  intros H. unfold normalize. apply handle_all_unchanged.
  intros q (Hq & n & Hl & _)%elem_of_find_all. exists n. split; [done|].
  unfold find_checkbox in *. by eapply find_first_None_below.
Qed.

Lemma normalize_without_checkbox_witness :
  find_checkbox (el "div" [("class", "content")]
                   [el "ul" [] [el "li" [] [txt "Milk"]; el "li" [] [txt "Eggs"]]])%string
    = None
  /\ normalize (el "div" [("class", "content")]
                  [el "ul" [] [el "li" [] [txt "Milk"]; el "li" [] [txt "Eggs"]]])%string
     = (None, [([], (el "div" [("class", "content")]
                  [el "ul" [] [el "li" [] [txt "Milk"]; el "li" [] [txt "Eggs"]]])%string)]).
Proof.
  split; [reflexivity|].
  apply (normalize_without_checkbox
           (el "div" [("class", "content")]
              [el "ul" [] [el "li" [] [txt "Milk"]; el "li" [] [txt "Eggs"]]])%string).
  reflexivity.
Defined.

(** *** No check list item is left *)

Lemma under_paragraph (T : node) (r0 q : path) (s : pystr) (n : node) :
  lookup_path r0 T = Some (new_paragraph s) ->
  is_prefix r0 q = true -> q <> r0 ->
  lookup_path q T = Some n -> is_li n = false.
Proof.
  intros Hp Hpre Hne Hq. apply is_prefix_drop in Hpre.
  destruct (drop (length r0) q) as [|i x] eqn:E.
  { rewrite app_nil_r in Hpre. done. }
  rewrite Hpre, lookup_path_app, Hp in Hq. simpl in Hq.
  destruct i as [|i]; [|done]. simpl in Hq.
  destruct x; [|done]. by injection Hq as <-.
Qed.

Lemma lookup_replace_at_above (q' x : path) (new T : node) :
  lookup_path q' (replace_at (q' ++ x) new T) = replace_at x new <$> lookup_path q' T.
Proof.
  revert T. induction q' as [|i q' IH]; intros T; simpl; [done|].
  destruct T as [| |n a cs]; try done. simpl.
  rewrite list_lookup_alter_eq. destruct (cs !! i); simpl; [apply IH | done].
Qed.

Lemma is_li_replace_at (x : path) (new m : node) :
  x <> [] -> is_li (replace_at x new m) = is_li m.
Proof. destruct x; [done|]. intros _. by destruct m. Qed.

Lemma find_checkbox_above (m li : node) (x : path) :
  lookup_path x m = Some li -> find_checkbox li <> None -> find_checkbox m <> None.
Proof.
  intros Hl Hc Hm. apply Hc. unfold find_checkbox in *.
  by eapply find_first_None_below.
Qed.

Lemma deref_attached (q : path) (D : store) (T : node) :
  holder q D = None -> deref q (D ++ [([], T)]) = lookup_path q T.
Proof. intros H. unfold deref. rewrite holder_app, H. simpl. by rewrite drop_0. Qed.

(** A position that a detached tree holds is no list item of the
    container any more. *)
Lemma detached_not_live (R : list path) (D : store) (T : node) (q : path)
    (x : path * node) :
  clear_inv R D T -> q ∉ roots D -> holder q D = Some x -> ~ live T q.
Proof.
  intros Hci Hfresh Hh (n & Hn & Hli & _). destruct x as [r t].
  apply holder_Some in Hh as [Hpre Hr].
  destruct (ci_para _ _ _ Hci r Hr) as (r0 & s & Hr0 & Hp0 & Hpara).
  assert (Hno : is_li n = false).
  { apply (under_paragraph T r0 q s n); [done| |by intros ->|done].
    by eapply is_prefix_trans. }
  congruence.
Qed.

Lemma handle_all_clears (content : node) (l : list path) (D : store) (T : node) :
  document_order l -> loop_inv content l D T -> clear_inv l D T ->
  exists D' T',
    handle_all l (D ++ [([], T)]) = (None, D' ++ [([], T')])
    /\ Forall (fun r => r <> []) (roots D')
    /\ (forall q, q <> [] -> ~ live T' q).
Proof.
  revert D T. induction l as [|q l IH]; intros D T Hord Hinv Hci.
  { exists D, T. split; [done|]. split; [apply (inv_roots _ _ _ _ Hinv)|].
    intros q Hq Hlive. by apply (ci_live _ _ _ Hci q Hq), elem_of_nil in Hlive. }
  destruct (handle_li_step content q l D T Hord Hinv) as (li & Hl & Hstep).
  destruct (inv_deref _ _ _ _ Hinv q) as (li' & Hd & Hl'); [by left|].
  rewrite Hl in Hl'. injection Hl' as <-.
  destruct (inv_fresh _ _ _ _ Hinv q) as [Hfresh Hqne]; [by left|].
  pose proof Hord as [Hq Hord'].
  rewrite Forall_forall in Hq.
  assert (Hnotq : forall q', q' ∈ q :: l -> q' <> q -> q' ∈ l).
  { intros q' [->|Hin]%elem_of_cons; done. }
  rewrite handle_all_cons.
  destruct (find_checkbox li) as [[cq checkbox]|] eqn:Hcb.
  - destruct Hstep as (D1 & T1 & Hh & Hinv1 & Hroots & HT).
    assert (Horder1 : forall r q2, r ∈ roots D1 -> q2 ∈ l -> is_prefix q2 r = false).
    { intros r q2 Hr Hq2. rewrite Hroots in Hr.
      apply elem_of_cons in Hr as [->|Hr]; [by apply Hq|].
      apply (ci_order _ _ _ Hci r q2 Hr). by right. }
    assert (Hci1 : clear_inv l D1 T1).
    { destruct (holder q D) as [x|] eqn:HhD.
      + subst T1. split; [|intros r Hr|done].
        * intros q' Hq' Hlive. apply Hnotq; [by apply (ci_live _ _ _ Hci)|].
          intros ->. by apply (detached_not_live _ _ _ _ _ Hci Hfresh HhD).
        * rewrite Hroots in Hr |- *. destruct x as [rx tx].
          apply holder_Some in HhD as [Hpre Hrx].
          assert (Hr' : r ∈ roots D \/ r = q).
          { apply elem_of_cons in Hr as [->|Hr]; [by right | by left]. }
          destruct Hr' as [Hr'| ->].
          -- destruct (ci_para _ _ _ Hci r Hr') as (r0 & s & H0 & H1 & H2).
             exists r0, s. split; [by right | done].
          -- destruct (ci_para _ _ _ Hci rx Hrx) as (r0 & s & H0 & H1 & H2).
             exists r0, s. split; [by right|]. split; [|done].
             by eapply is_prefix_trans.
      + destruct HT as [-> HqT].
        set (new := new_paragraph (checkbox_text li cq checkbox)) in *.
        pose proof (proj1 (holder_None q D) HhD) as Hnone.
        split; [|intros r Hr|done].
        * intros q' Hq' (n & Hn & Hli & Hc).
          destruct (is_prefix q q') eqn:E1.
          { exfalso. destruct (decide (q' = q)) as [->|Hne].
            - rewrite (lookup_replace_at q new li T HqT) in Hn.
              injection Hn as <-. done.
            - assert (Hno : is_li n = false).
              { apply (under_paragraph (replace_at q new T) q q'
                         (checkbox_text li cq checkbox) n); [|done..].
                by apply (lookup_replace_at q new li T). }
              congruence. }
          destruct (is_prefix q' q) eqn:E2.
          { exfalso. pose proof (is_prefix_drop _ _ E2) as Hx.
            set (x := drop (length q') q) in *.
            assert (Hxne : x <> []).
            { intros Ex. rewrite Ex, app_nil_r in Hx. subst q'.
              by rewrite is_prefix_refl in E1. }
            rewrite Hx, lookup_replace_at_above in Hn.
            destruct (lookup_path q' T) as [m|] eqn:Hm; [|done].
            simpl in Hn. injection Hn as <-.
            rewrite is_li_replace_at in Hli by done.
            assert (Hxm : lookup_path x m = Some li).
            { rewrite Hx, lookup_path_app, Hm in HqT. done. }
            assert (Hlive : live T q').
            { exists m. split; [done|]. split; [done|].
              apply (find_checkbox_above m li x Hxm). by rewrite Hcb. }
            pose proof (ci_live _ _ _ Hci q' Hq' Hlive) as Hin.
            assert (Hne : q' <> q).
            { intros ->. by rewrite is_prefix_refl in E1. }
            specialize (Hq q' (Hnotq q' Hin Hne)). congruence. }
          rewrite lookup_replace_at_other in Hn by done.
          apply Hnotq.
          -- apply (ci_live _ _ _ Hci q' Hq'). by exists n.
          -- intros ->. by rewrite is_prefix_refl in E1.
        * rewrite Hroots in Hr |- *.
          apply elem_of_cons in Hr as [->|Hr].
          -- exists q, (checkbox_text li cq checkbox).
             split; [by left|]. split; [apply is_prefix_refl|].
             by apply (lookup_replace_at q new li T).
          -- destruct (ci_para _ _ _ Hci r Hr) as (r0 & s & H0 & H1 & H2).
             exists r0, s. split; [by right|]. split; [done|].
             rewrite lookup_replace_at_other; [done|]. split.
             ++ apply (ci_order _ _ _ Hci r0 q H0). by left.
             ++ by apply Hnone. }
    unfold store, path in *. rewrite Hh.
    by apply (IH D1 T1 Hord' Hinv1).
  - unfold store, path in *. rewrite Hstep.
    apply (IH D T Hord' (loop_inv_tail _ _ _ _ _ Hinv)).
    split; [|apply (ci_para _ _ _ Hci)|].
    + intros q' Hq' Hlive. apply Hnotq; [by apply (ci_live _ _ _ Hci)|].
      intros ->. destruct (holder q D) as [x|] eqn:HhD.
      * by apply (detached_not_live _ _ _ _ _ Hci Hfresh HhD).
      * destruct Hlive as (n & Hn & _ & Hc).
        rewrite deref_attached in Hd by done.
        rewrite Hd in Hn. injection Hn as <-. by rewrite Hcb in Hc.
    + intros r q2 Hr Hq2. apply (ci_order _ _ _ Hci r q2 Hr). by right.
Qed.

Lemma clear_inv_init (content : node) : clear_inv (find_all is_li content) [] content.
Proof.
  split.
  - intros q Hq (n & Hn & Hli & _). apply elem_of_find_all. eauto.
  - by intros r ?%elem_of_nil.
  - by intros r q2 ?%elem_of_nil.
Qed.

(** After the loop no list item below the content container holds a check
    box: each one was replaced by its paragraph or removed with a list item
    that held it. *)
Theorem normalize_clears_check_list (content : node) (q : path) (n : node) :
  q <> [] ->
  (content_of (snd (normalize content)) ≫= lookup_path q) = Some n ->
  is_li n = true ->
  find_checkbox n = None.
Proof.
  intros Hq Hn Hli.
  destruct (handle_all_clears content (find_all is_li content) [] content
              (find_all_order _ _) (loop_inv_init content) (clear_inv_init content))
    as (D & T & Hrun & HD & Hclear).
  unfold normalize in Hn.
  change (find_all (is_tag (py "li")) content) with (find_all is_li content) in Hn.
  simpl in Hrun. unfold store, path in *. rewrite Hrun in Hn. simpl in Hn.
  rewrite content_of_store in Hn by done. simpl in Hn.
  destruct (find_checkbox n) eqn:E; [|done].
  exfalso. apply (Hclear q Hq). exists n. split; [done|]. split; [done|].
  by rewrite E.
Qed.

Lemma normalize_clears_check_list_witness :
  [0; 0] <> []
  /\ (content_of (snd (normalize mixed_content)) ≫= lookup_path [0; 0])
     = Some (el "li" [] [txt "Milk"])%string
  /\ is_li (el "li" [] [txt "Milk"])%string = true
  /\ find_checkbox (el "li" [] [txt "Milk"])%string = None.
Proof.
  split; [discriminate|]. split; [vm_compute; reflexivity|]. split; [reflexivity|].
  apply (normalize_clears_check_list mixed_content [0; 0]);
    [discriminate | vm_compute; reflexivity | reflexivity].
Defined.

(** *** What the loop leaves alone *)

Lemma handle_all_keeps (content : node) (l : list path) (D : store) (T : node)
    (q : path) (v : node) :
  document_order l -> loop_inv content l D T ->
  (forall r, r ∈ l ->
     incomparable r q
     \/ exists li, lookup_path r content = Some li /\ find_checkbox li = None) ->
  lookup_path q T = Some v ->
  exists D' T',
    handle_all l (D ++ [([], T)]) = (None, D' ++ [([], T')])
    /\ Forall (fun r => r <> []) (roots D')
    /\ lookup_path q T' = Some v.
Proof.
  revert D T. induction l as [|r l IH]; intros D T Hord Hinv Hapart Hv.
  { exists D, T. split; [done|]. split; [apply (inv_roots _ _ _ _ Hinv) | done]. }
  destruct (handle_li_step content r l D T Hord Hinv) as (li & Hl & Hstep).
  destruct Hord as [_ Hord'].
  assert (Hapart' : forall r', r' ∈ l ->
            incomparable r' q
            \/ exists li, lookup_path r' content = Some li /\ find_checkbox li = None).
  { intros r' Hr'. apply Hapart. by right. }
  rewrite handle_all_cons.
  destruct (find_checkbox li) as [[cq checkbox]|] eqn:Hcb.
  - destruct Hstep as (D1 & T1 & Hh & Hinv1 & _ & HT).
    unfold store, path in *. rewrite Hh.
    apply (IH D1 T1 Hord' Hinv1 Hapart').
    destruct (holder r D); [by subst T1|].
    destruct HT as [-> _].
    destruct (Hapart r) as [Hinc|(li' & Hl' & Hnone)]; [by left| |].
    + by rewrite lookup_replace_at_other.
    + rewrite Hl in Hl'. injection Hl' as <-. by rewrite Hcb in Hnone.
  - unfold store, path in *. rewrite Hstep.
    by apply (IH D T Hord' (loop_inv_tail _ _ _ _ _ Hinv) Hapart').
Qed.

(** An element of the content container that neither lies in a list item
    with a check box nor holds one is still there, unchanged, after the
    loop. *)
Theorem normalize_keeps_other_content (content : node) (q : path) (v : node) :
  lookup_path q content = Some v ->
  apart_from_check_list content q = true ->
  (content_of (snd (normalize content)) ≫= lookup_path q) = Some v.
Proof.
  intros Hv Hapart.
  destruct (handle_all_keeps content (find_all is_li content) [] content q v
              (find_all_order _ _) (loop_inv_init content))
    as (D & T & Hrun & HD & HT); [|done|].
  { intros r Hr. unfold apart_from_check_list in Hapart.
    rewrite forallb_forall in Hapart.
    specialize (Hapart r (proj1 (list_elem_of_In _ _) Hr)).
    apply orb_true_iff in Hapart as [Hinc|Hnone].
    - left. apply andb_true_iff in Hinc as [H1 H2].
      split; by apply negb_true_iff.
    - right. apply elem_of_find_all in Hr as (_ & n & Hn & _).
      rewrite Hn in Hnone. exists n. split; [done|].
      by apply bool_decide_eq_true in Hnone. }
  unfold normalize.
  change (find_all (is_tag (py "li")) content) with (find_all is_li content).
  simpl in Hrun. unfold store, path in *. rewrite Hrun. cbn [snd].
  rewrite content_of_store by done. done.
Qed.

Lemma normalize_keeps_other_content_witness :
  lookup_path [0; 0] mixed_content = Some (el "li" [] [txt "Milk"])%string
  /\ apart_from_check_list mixed_content [0; 0] = true
  /\ (content_of (snd (normalize mixed_content)) ≫= lookup_path [0; 0])
     = Some (el "li" [] [txt "Milk"])%string.
Proof.
  split; [reflexivity|]. split; [reflexivity|].
  apply (normalize_keeps_other_content mixed_content [0; 0]); reflexivity.
Defined.

(** ** Conversion of one file: failures and what is written *)

Section ConversionRuns.

Variable open_html : pystr -> exn + node.
Variable md : node -> exn + pystr.
Variable open_w : pystr -> option exn.

Local Open Scope py_scope.

Local Opaque sanitize_filename path_join extract_title basename find_content py.

Lemma convert_read_failure (html_filepath output_dir_path : pystr) (w : world) (e : exn) :
  open_html html_filepath = inl e ->
  convert_keep_html_to_md open_html md open_w html_filepath output_dir_path w
  = (inr tt,
     World (files w)
       (printed w ++ [Processing (basename html_filepath); failure_line html_filepath e])
       (dom w) (rendered w)).
Proof.
  intros He. unfold convert_keep_html_to_md.
  unfold try_except at 1. unfold bind at 1. unfold print at 1. cbv beta iota.
  unfold bind at 1. unfold read_soup. rewrite He. unfold raise. cbv beta iota.
  unfold failure_line, print. destruct e; simpl; by rewrite <- app_assoc.
Qed.

Lemma convert_after_read (html_filepath output_dir_path : pystr) (w : world) (soup : node) :
  open_html html_filepath = inr soup ->
  let base_filename := basename html_filepath in
  let title := extract_title soup base_filename in
  let md_filename := sanitize_filename title ++ py ".md" in
  let full_md_path := output_path output_dir_path html_filepath soup in
  exists body w1,
    fst (convert_content md base_filename (find_content soup) empty_world) = inr body
    /\ files w1 = files w
    /\ conversions_started w1 = S (conversions_started w)
    /\ convert_keep_html_to_md open_html md open_w html_filepath output_dir_path w
       = match open_w full_md_path with
         | Some e =>
             (inr tt, World (files w1) (printed w1 ++ [failure_line html_filepath e])
                        (dom w1) (rendered w1))
         | None =>
             (inr tt, World (<[full_md_path := final_md_content title body]> (files w1))
                        (printed w1 ++ [Converted md_filename]) (dom w1) (rendered w1))
         end.
Proof.
  intros Hread base_filename title md_filename full_md_path.
  unfold convert_keep_html_to_md.
  unfold try_except at 1. unfold bind at 1. unfold print at 1. cbv beta iota.
  unfold bind at 1. unfold read_soup. rewrite Hread. unfold ret at 1.
  cbv beta iota. unfold bind at 1.
  fold base_filename. fold title. fold md_filename.
  change (path_join output_dir_path md_filename) with full_md_path.
  set (w0 := World (files w) (printed w ++ [Processing base_filename]) (dom w) (rendered w)).
  pose proof (convert_content_body md base_filename (find_content soup) w0 empty_world)
    as Hbody.
  destruct (convert_content_returns md base_filename (find_content soup) w0)
    as (body & w1 & Hc & Hfiles & Hs & _).
  rewrite Hc in Hbody |- *. simpl in Hbody.
  exists body, w1. split; [by symmetry|]. split; [done|]. split.
  { rewrite Hs. unfold w0. started. }
  unfold bind, write_file, print, failure_line.
  destruct (open_w full_md_path) as [e|]; [destruct e|]; simpl; reflexivity.
Qed.

End ConversionRuns.

(** No exception leaves the conversion of a file, whatever the reader, the
    renderer and the writer raise. *)
Theorem convert_keep_html_to_md_never_raises
    (open_html : pystr -> exn + node) (md : node -> exn + pystr)
    (open_w : pystr -> option exn) (html_filepath output_dir_path : pystr) (w : world) :
  fst (convert_keep_html_to_md open_html md open_w html_filepath output_dir_path w)
  = inr tt.
Proof. apply convert_keep_html_to_md_returns. Qed.

(** When the source cannot be opened or parsed, the conversion prints its
    first line and one error line (the line for a missing file when the
    exception is [FileNotFoundError]), writes no file and renders nothing. *)
Theorem convert_read_failure_writes_nothing
    (open_html : pystr -> exn + node) (md : node -> exn + pystr)
    (open_w : pystr -> option exn) (html_filepath output_dir_path : pystr)
    (w : world) (e : exn) :
  open_html html_filepath = inl e ->
  let w' := snd (convert_keep_html_to_md open_html md open_w html_filepath
                   output_dir_path w) in
  files w' = files w
  /\ printed w' = printed w ++ [Processing (basename html_filepath);
                                failure_line html_filepath e]
  /\ rendered w' = rendered w.
Proof.
  intros He. cbv zeta.
  by rewrite (convert_read_failure open_html md open_w _ _ w e He).
Qed.

Lemma convert_read_failure_writes_nothing_witness :
  open_missing (py "notes/a.html") = inl FileNotFoundError
  /\ printed (snd (convert_keep_html_to_md open_missing md_text no_write_error
                     (py "notes/a.html") (py "notes/converted files") empty_world))
     = [Processing (py "a.html"); ErrorNotFound (py "notes/a.html")].
Proof.
  split; [reflexivity|].
  apply (convert_read_failure_writes_nothing open_missing md_text no_write_error
           (py "notes/a.html") (py "notes/converted files") empty_world
           FileNotFoundError).
  reflexivity.
Defined.



(** A conversion changes no file but its own output file: every path that
    is not the output path of the document read keeps its content. *)
Theorem convert_keep_html_to_md_frame
    (open_html : pystr -> exn + node) (md : node -> exn + pystr)
    (open_w : pystr -> option exn) (html_filepath output_dir_path : pystr)
    (w : world) (other : pystr) :
  (forall soup, open_html html_filepath = inr soup ->
                other <> output_path output_dir_path html_filepath soup) ->
  files (snd (convert_keep_html_to_md open_html md open_w html_filepath
                output_dir_path w)) !! other
  = files w !! other.
Proof.
  intros Hother. destruct (open_html html_filepath) as [e|soup] eqn:Hread.
  - by rewrite (convert_read_failure open_html md open_w _ _ w e Hread).
  - destruct (convert_after_read open_html md open_w html_filepath output_dir_path
                w soup Hread) as (body & w1 & _ & Hfiles & _ & ->).
    destruct (open_w _); cbn [snd files]; rewrite Hfiles; [done|].
    rewrite lookup_insert_ne; [done|]. intros E. by apply (Hother soup).
Qed.

Lemma convert_keep_html_to_md_frame_witness :
  (forall soup, open_as shopping (py "notes/a.html") = inr soup ->
                py "notes/a.html"
                <> output_path (py "notes/converted files") (py "notes/a.html") soup)
  /\ files (snd (convert_keep_html_to_md (open_as shopping) md_text no_write_error
                   (py "notes/a.html") (py "notes/converted files")
                   (World {[py "notes/a.html" := py "source"]} [] [] [])))
       !! py "notes/a.html"
     = Some (py "source").
Proof.
  assert (H : forall soup, open_as shopping (py "notes/a.html") = inr soup ->
                py "notes/a.html"
                <> output_path (py "notes/converted files") (py "notes/a.html") soup).
  { intros soup [= <-]. vm_compute. discriminate. }
  split; [exact H|].
  rewrite (convert_keep_html_to_md_frame (open_as shopping) md_text no_write_error
             (py "notes/a.html") (py "notes/converted files") _ (py "notes/a.html") H).
  apply lookup_singleton_eq.
Defined.

(** Two documents whose titles give the same file name: the second
    conversion overwrites the file the first one wrote, without notice. *)
Theorem convert_overwrites_same_title
    (open_html : pystr -> exn + node) (md : node -> exn + pystr)
    (open_w : pystr -> option exn) (first second output_dir_path : pystr)
    (w : world) (soup1 soup2 : node) :
  open_html first = inr soup1 ->
  open_html second = inr soup2 ->
  output_path output_dir_path first soup1 = output_path output_dir_path second soup2 ->
  open_w (output_path output_dir_path second soup2) = None ->
  let w1 := snd (convert_keep_html_to_md open_html md open_w first output_dir_path w) in
  let w2 := snd (convert_keep_html_to_md open_html md open_w second output_dir_path w1) in
  exists body,
    fst (convert_content md (basename second) (find_content soup2) empty_world) = inr body
    /\ files w2
       = <[output_path output_dir_path second soup2 :=
             final_md_content (extract_title soup2 (basename second)) body]> (files w).
Proof.
  intros H1 H2 Hsame Hw. cbv zeta.
  destruct (convert_after_read open_html md open_w first output_dir_path w soup1 H1)
    as (body1 & w1 & _ & Hf1 & _ & ->).
  rewrite Hsame, Hw. cbn [snd].
  match goal with |- context [convert_keep_html_to_md _ _ _ second _ ?w0] =>
    destruct (convert_after_read open_html md open_w second output_dir_path w0 soup2 H2)
      as (body2 & w2 & Hb2 & Hf2 & _ & ->)
  end.
  rewrite Hw. cbn [snd files] in *. exists body2. split; [done|].
  by rewrite Hf2, Hf1, insert_insert_eq.
Qed.

Lemma convert_overwrites_same_title_witness :
  open_two (py "notes/a.html") = inr shopping
  /\ open_two (py "notes/b.html") = inr shopping_again
  /\ output_path (py "out") (py "notes/a.html") shopping
     = output_path (py "out") (py "notes/b.html") shopping_again
  /\ no_write_error (output_path (py "out") (py "notes/b.html") shopping_again) = None
  /\ exists body,
       fst (convert_content md_text (basename (py "notes/b.html"))
              (find_content shopping_again) empty_world) = inr body
       /\ files (snd (convert_keep_html_to_md open_two md_text no_write_error
                        (py "notes/b.html") (py "out")
                        (snd (convert_keep_html_to_md open_two md_text no_write_error
                                (py "notes/a.html") (py "out") empty_world))))
          = <[output_path (py "out") (py "notes/b.html") shopping_again :=
                final_md_content (extract_title shopping_again
                                    (basename (py "notes/b.html"))) body]> ∅.
Proof.
  split; [reflexivity|]. split; [reflexivity|].
  split; [vm_compute; reflexivity|]. split; [reflexivity|].
  apply (convert_overwrites_same_title open_two md_text no_write_error
           (py "notes/a.html") (py "notes/b.html") (py "out") empty_world
           shopping shopping_again);
    [reflexivity | reflexivity | vm_compute; reflexivity | reflexivity].
Defined.

(** The content step on a container: the body is the rendering of the
    container as the loop left it.  When the renderer raises on it, the
    second attempt is made on the same tree and raises again, so the body is
    the marker and the line reporting a raw conversion is never printed. *)
Theorem convert_content_outcomes
    (md : node -> exn + pystr) (base_filename : pystr) (content_tag : node) (w : world) :
  exists T,
    content_of (snd (normalize content_tag)) = Some T
    /\ convert_content md base_filename (Some content_tag) w
       = match md T with
         | inr s =>
             (inr s, World (files w) (printed w) (snd (normalize content_tag))
                       (rendered w ++ [T]))
         | inl e =>
             (inr (py "[Content Conversion Failed]"),
              World (files w)
                (printed w ++ [WarningContent base_filename e;
                               ErrorRawContent base_filename e])
                (snd (normalize content_tag)) (rendered w ++ [T; T]))
         end.
Proof.
  destruct (normalize_returns content_tag) as (D & T & Hn & HD).
  exists T. rewrite Hn. cbn [snd]. split; [by apply content_of_store|].
  unfold convert_content, bind, try_except, set_dom, handle_checkboxes,
    render_content, print, ret. cbn [dom files printed rendered].
  unfold normalize in Hn. rewrite Hn. cbn [dom files printed rendered].
  rewrite !content_of_store by done.
  destruct (md T) as [e|s] eqn:E; cbn [dom files printed rendered].
  - rewrite !content_of_store by done. rewrite E.
    cbn [dom files printed rendered]. by rewrite <- !app_assoc.
  - done.
Qed.

(** ** The batch: what it writes, reports and lets escape *)

Lemma startswith_prefix (a b : pystr) : a `prefix_of` b -> startswith a b = true.
Proof.
  intros [k ->]. induction a as [|c a IH]; simpl; [done|].
  by rewrite N.eqb_refl.
Qed.

Section BatchRuns.

Variable open_html : pystr -> exn + node.
Variable md : node -> exn + pystr.
Variable open_w : pystr -> option exn.
Variable lower : pystr -> pystr.

Local Open Scope py_scope.

(** A conversion leaves every path outside its output directory alone. *)
Lemma convert_files_outside (html_filepath output_dir_path other : pystr) (w : world) :
  startswith output_dir_path other = false ->
  files (snd (convert_keep_html_to_md open_html md open_w html_filepath
                output_dir_path w)) !! other
  = files w !! other.
Proof.
  intros Hout. destruct (open_html html_filepath) as [e|soup] eqn:Hread.
  - by rewrite (convert_read_failure open_html md open_w _ _ w e Hread).
  - destruct (convert_after_read open_html md open_w html_filepath output_dir_path
                w soup Hread) as (body & w1 & _ & Hfiles & _ & ->).
    destruct (open_w _); cbn [snd files]; rewrite Hfiles; [done|].
    rewrite lookup_insert_ne; [done|]. intros <-.
    rewrite startswith_prefix in Hout; [done|].
    apply path_join_prefix, md_filename_relative.
Qed.

Local Opaque convert_keep_html_to_md.

Lemma convert_each_files_outside (input_dir output_dir other : pystr)
    (names : list pystr) (file_count conversion_errors : Z) (w : world) :
  startswith output_dir other = false ->
  files (snd (convert_each open_html md open_w lower input_dir output_dir names
                file_count conversion_errors w)) !! other
  = files w !! other.
Proof.
  intros Hout. revert file_count conversion_errors w.
  induction names as [|filename names IH]; intros fc ce w; [done|].
  cbn [convert_each]. destruct (endswith _ _); [|apply IH].
  unfold bind at 1. unfold try_except at 1. unfold bind at 1.
  pose proof (convert_keep_html_to_md_returns open_html md open_w
                (path_join input_dir filename) output_dir w) as Hr.
  pose proof (convert_files_outside (path_join input_dir filename) output_dir
                other w Hout) as Hf.
  destruct (convert_keep_html_to_md _ _ _ _ _ w) as [[e|[]] w1]; [done|].
  unfold ret at 1. cbv beta iota. rewrite IH. exact Hf.
Qed.

Local Transparent convert_keep_html_to_md.

End BatchRuns.

Section MainRuns.

Variable open_html : pystr -> exn + node.
Variable md : node -> exn + pystr.
Variable open_w : pystr -> option exn.
Variable lower : pystr -> pystr.
Variable askdirectory : pystr.
Variable makedirs : pystr -> option exn.
Variable listdir : pystr -> exn + list pystr.

Local Open Scope py_scope.

Local Abbreviation output_dir := (path_join askdirectory (py "converted files")).

Lemma main_cancelled (w : world) :
  askdirectory = [] ->
  main open_html md open_w lower askdirectory makedirs listdir w
  = (inr tt, World (files w) (printed w ++ [PleaseSelect; NoFolderSelected])
               (dom w) (rendered w)).
Proof.
  intros Hdir. unfold main. unfold bind at 1. unfold print at 1. cbv beta iota.
  rewrite bool_decide_true by done. unfold print. cbn [files printed dom rendered].
  by rewrite <- app_assoc.
Qed.

Lemma main_makedirs_failure (w : world) (e : exn) :
  askdirectory <> [] -> makedirs output_dir = Some e ->
  main open_html md open_w lower askdirectory makedirs listdir w
  = if is_OSError e
    then (inr tt, World (files w)
                    (printed w ++ [PleaseSelect; SelectedFolder askdirectory;
                                   ErrorCreating output_dir e])
                    (dom w) (rendered w))
    else (inl e, World (files w)
                   (printed w ++ [PleaseSelect; SelectedFolder askdirectory])
                   (dom w) (rendered w)).
Proof.
  intros Hdir Hmk. unfold main. unfold bind at 1. unfold print at 1. cbv beta iota.
  rewrite bool_decide_false by done.
  unfold bind at 1. unfold print at 1. cbv beta iota zeta.
  rewrite Hmk.
  destruct (is_OSError e); unfold print, raise; cbn [files printed dom rendered];
    by rewrite <- !app_assoc.
Qed.

Lemma main_listdir (w : world) :
  askdirectory <> [] -> makedirs output_dir = None ->
  main open_html md open_w lower askdirectory makedirs listdir w
  = match listdir askdirectory with
    | inl e => (inl e, started_world askdirectory w)
    | inr names =>
        match convert_each open_html md open_w lower askdirectory output_dir
                names 0 0 (started_world askdirectory w) with
        | (inr counters, w1) => print_summary output_dir (fst counters) (snd counters) w1
        | (inl e, w1) => (inl e, w1)
        end
    end.
Proof.
  intros Hdir Hmk. unfold main. unfold bind at 1. unfold print at 1. cbv beta iota.
  rewrite bool_decide_false by done.
  unfold bind at 1. unfold print at 1. cbv beta iota zeta.
  rewrite Hmk.
  unfold bind at 1. unfold print at 1. cbv beta iota.
  unfold bind at 1. unfold print at 1. cbv beta iota.
  cbn [files printed dom rendered]. rewrite <- !app_assoc. cbn [app].
  fold (started_world askdirectory w).
  destruct (listdir askdirectory) as [e|names].
  - unfold bind, raise. done.
  - unfold bind at 1. unfold ret at 1. cbv beta iota. unfold bind at 1. done.
Qed.

Lemma print_summary_no_errors (N : nat) (w1 : world) :
  print_summary output_dir (Z.of_nat N) 0 w1
  = (inr tt, World (files w1) (printed w1 ++ summary_lines output_dir N)
               (dom w1) (rendered w1)).
Proof.
  unfold print_summary, summary_lines, bind, print, ret.
  cbn [files printed dom rendered].
  destruct N as [|N].
  - rewrite !bool_decide_true by done. cbn [files printed dom rendered].
    by rewrite <- !app_assoc.
  - rewrite (bool_decide_false (Z.of_nat (S N) = 0%Z)) by lia.
    rewrite (bool_decide_false (S N = 0)) by lia.
    rewrite bool_decide_false by lia.
    cbn [files printed dom rendered]. rewrite Z.sub_0_r.
    by rewrite <- !app_assoc.
Qed.

End MainRuns.

(** The loop of [main] followed by the summary, when the directory lists
    [names]. *)
Lemma main_after_listing
    (open_html : pystr -> exn + node) (md : node -> exn + pystr)
    (open_w : pystr -> option exn) (lower : pystr -> pystr)
    (askdirectory : pystr) (makedirs : pystr -> option exn)
    (listdir : pystr -> exn + list pystr) (names : list pystr) (w : world) :
  let output_dir := path_join askdirectory (py "converted files") in
  let N := length (List.filter (is_html_name lower) names) in
  askdirectory <> [] ->
  makedirs output_dir = None ->
  listdir askdirectory = inr names ->
  exists w0 w1,
    files w0 = files w
    /\ convert_each open_html md open_w lower askdirectory output_dir names 0 0 w0
       = (inr (Z.of_nat N, 0%Z), w1)
    /\ main open_html md open_w lower askdirectory makedirs listdir w
       = (inr tt, World (files w1) (printed w1 ++ summary_lines output_dir N)
                    (dom w1) (rendered w1)).
Proof.
  intros output_dir N Hdir Hmk Hls.
  rewrite (main_listdir open_html md open_w lower askdirectory makedirs listdir w Hdir Hmk).
  rewrite Hls. fold output_dir.
  match goal with |- context [convert_each _ _ _ _ _ _ _ _ _ ?w0] =>
    destruct (convert_each_counters open_html md open_w lower askdirectory output_dir
                names 0 0 w0) as (w1 & Hrun & _);
    exists w0, w1
  end.
  split; [done|]. rewrite Z.add_0_l in Hrun. fold N in Hrun.
  split; [done|]. rewrite Hrun. cbn [fst snd].
  apply print_summary_no_errors.
Qed.

(** Whatever happens to the single files, the summary reports every
    attempted file as a successful conversion and prints no line of errors:
    the error counter of [main] is never raised. *)
Theorem main_reports_no_errors
    (open_html : pystr -> exn + node) (md : node -> exn + pystr)
    (open_w : pystr -> option exn) (lower : pystr -> pystr)
    (askdirectory : pystr) (makedirs : pystr -> option exn)
    (listdir : pystr -> exn + list pystr) (names : list pystr) (w : world) :
  let output_dir := path_join askdirectory (py "converted files") in
  let N := length (List.filter (is_html_name lower) names) in
  askdirectory <> [] ->
  makedirs output_dir = None ->
  listdir askdirectory = inr names ->
  let r := main open_html md open_w lower askdirectory makedirs listdir w in
  fst r = inr tt
  /\ exists before, printed (snd r) = before ++ summary_lines output_dir N.
Proof.
  intros output_dir N Hdir Hmk Hls.
  destruct (main_after_listing open_html md open_w lower askdirectory makedirs
              listdir names w Hdir Hmk Hls) as (w0 & w1 & _ & _ & Hmain).
  cbv zeta. fold output_dir N in Hmain. rewrite Hmain. split; [done|].
  by exists (printed w1).
Qed.

Lemma main_reports_no_errors_witness :
  py "notes" <> []
  /\ no_makedirs_error (path_join (py "notes") (py "converted files")) = None
  /\ listdir_as listing (py "notes") = inr listing
  /\ exists before,
       printed (snd (main open_missing md_text no_write_error ascii_lower (py "notes")
                       no_makedirs_error (listdir_as listing) empty_world))
       = before ++ summary_lines (path_join (py "notes") (py "converted files")) 2.
Proof.
  split; [discriminate|]. split; [reflexivity|]. split; [reflexivity|].
  apply (main_reports_no_errors open_missing md_text no_write_error ascii_lower
           (py "notes") no_makedirs_error (listdir_as listing) listing empty_world);
    [discriminate | reflexivity | reflexivity].
Defined.

(** A run of [main] changes no file outside the output directory, the
    directory named [converted files] under the chosen one: the source files
    and everything else keep their content. *)
Theorem main_writes_under_output_dir
    (open_html : pystr -> exn + node) (md : node -> exn + pystr)
    (open_w : pystr -> option exn) (lower : pystr -> pystr)
    (askdirectory : pystr) (makedirs : pystr -> option exn)
    (listdir : pystr -> exn + list pystr) (w : world) (other : pystr) :
  startswith (path_join askdirectory (py "converted files")) other = false ->
  files (snd (main open_html md open_w lower askdirectory makedirs listdir w)) !! other
  = files w !! other.
Proof.
  intros Hout. destruct (decide (askdirectory = [])) as [Hdir|Hdir].
  { by rewrite main_cancelled. }
  destruct (makedirs (path_join askdirectory (py "converted files"))) as [e|] eqn:Hmk.
  { rewrite (main_makedirs_failure _ _ _ _ _ _ _ w e Hdir Hmk). by destruct (is_OSError e). }
  destruct (listdir askdirectory) as [e|names] eqn:Hls.
  { rewrite (main_listdir _ _ _ _ _ _ _ w Hdir Hmk), Hls. done. }
  destruct (main_after_listing open_html md open_w lower askdirectory makedirs
              listdir names w Hdir Hmk Hls) as (w0 & w1 & Hf0 & Hrun & ->).
  cbn [snd files]. rewrite <- Hf0.
  pose proof (convert_each_files_outside open_html md open_w lower askdirectory
                (path_join askdirectory (py "converted files")) other names 0 0 w0 Hout)
    as Hf.
  by rewrite Hrun in Hf.
Qed.

Lemma main_writes_under_output_dir_witness :
  startswith (path_join (py "notes") (py "converted files")) (py "notes/shopping.html")
    = false
  /\ files (snd (main (open_as shopping) md_text no_write_error ascii_lower (py "notes")
                   no_makedirs_error (listdir_as listing)
                   (World {[py "notes/shopping.html" := py "source"]} [] [] [])))
       !! py "notes/shopping.html"
     = Some (py "source").
Proof.
  split; [reflexivity|].
  rewrite (main_writes_under_output_dir (open_as shopping) md_text no_write_error
             ascii_lower (py "notes") no_makedirs_error (listdir_as listing) _
             (py "notes/shopping.html")); [|reflexivity].
  apply lookup_singleton_eq.
Defined.

(** When no directory is chosen, or the output directory cannot be made
    ([OSError]), [main] returns after its message: no conversion is started
    and no file is written. *)
Theorem main_stops_early
    (open_html : pystr -> exn + node) (md : node -> exn + pystr)
    (open_w : pystr -> option exn) (lower : pystr -> pystr)
    (askdirectory : pystr) (makedirs : pystr -> option exn)
    (listdir : pystr -> exn + list pystr) (w : world) :
  askdirectory = []
  \/ (exists e, makedirs (path_join askdirectory (py "converted files")) = Some e
                /\ is_OSError e = true) ->
  let r := main open_html md open_w lower askdirectory makedirs listdir w in
  fst r = inr tt
  /\ files (snd r) = files w
  /\ conversions_started (snd r) = conversions_started w.
Proof.
  intros H. cbv zeta. destruct (decide (askdirectory = [])) as [Hdir|Hdir].
  { rewrite main_cancelled by done. split; [done|]. split; [done|]. started. }
  destruct H as [H|(e & Hmk & He)]; [done|].
  rewrite (main_makedirs_failure _ _ _ _ _ _ _ w e Hdir Hmk), He.
  split; [done|]. split; [done|]. started.
Qed.

Lemma main_stops_early_witness :
  (py "notes" = []
   \/ exists e, makedirs_denied (path_join (py "notes") (py "converted files")) = Some e
                /\ is_OSError e = true)
  /\ conversions_started
       (snd (main (open_as shopping) md_text no_write_error ascii_lower (py "notes")
               makedirs_denied (listdir_as listing) empty_world))
     = conversions_started empty_world.
Proof.
  assert (H : py "notes" = []
              \/ exists e, makedirs_denied (path_join (py "notes") (py "converted files"))
                           = Some e /\ is_OSError e = true).
  { right. exists (OSError "PermissionError"). split; reflexivity. }
  split; [exact H|].
  apply (main_stops_early (open_as shopping) md_text no_write_error ascii_lower
           (py "notes") makedirs_denied (listdir_as listing) empty_world H).
Defined.

(** The listing of the directory is not guarded: when [os.listdir] raises,
    the exception leaves [main], before any conversion and any file. *)
Theorem main_listdir_error_escapes
    (open_html : pystr -> exn + node) (md : node -> exn + pystr)
    (open_w : pystr -> option exn) (lower : pystr -> pystr)
    (askdirectory : pystr) (makedirs : pystr -> option exn)
    (listdir : pystr -> exn + list pystr) (w : world) (e : exn) :
  askdirectory <> [] ->
  makedirs (path_join askdirectory (py "converted files")) = None ->
  listdir askdirectory = inl e ->
  let r := main open_html md open_w lower askdirectory makedirs listdir w in
  fst r = inl e
  /\ files (snd r) = files w
  /\ conversions_started (snd r) = conversions_started w.
Proof.
  intros Hdir Hmk Hls. cbv zeta.
  rewrite (main_listdir _ _ _ _ _ _ _ w Hdir Hmk), Hls.
  split; [done|]. split; [done|]. started.
Qed.

Lemma main_listdir_error_escapes_witness :
  py "notes" <> []
  /\ no_makedirs_error (path_join (py "notes") (py "converted files")) = None
  /\ listdir_fails (py "notes") = inl (OSError "PermissionError")
  /\ fst (main (open_as shopping) md_text no_write_error ascii_lower (py "notes")
            no_makedirs_error listdir_fails empty_world)
     = inl (OSError "PermissionError").
Proof.
  split; [discriminate|]. split; [reflexivity|]. split; [reflexivity|].
  apply (main_listdir_error_escapes (open_as shopping) md_text no_write_error
           ascii_lower (py "notes") no_makedirs_error listdir_fails empty_world
           (OSError "PermissionError")); [discriminate | reflexivity | reflexivity].
Defined.

(** With a directory that can be listed and an output directory that can be
    made, or fails with an [OSError], no exception leaves [main]. *)
Theorem main_never_raises
    (open_html : pystr -> exn + node) (md : node -> exn + pystr)
    (open_w : pystr -> option exn) (lower : pystr -> pystr)
    (askdirectory : pystr) (makedirs : pystr -> option exn)
    (listdir : pystr -> exn + list pystr) (names : list pystr) (w : world) :
  listdir askdirectory = inr names ->
  from_option is_OSError true
    (makedirs (path_join askdirectory (py "converted files"))) = true ->
  fst (main open_html md open_w lower askdirectory makedirs listdir w) = inr tt.
Proof.
  intros Hls Hmk. destruct (decide (askdirectory = [])) as [Hdir|Hdir].
  { by rewrite main_cancelled. }
  destruct (makedirs (path_join askdirectory (py "converted files"))) as [e|] eqn:E.
  { simpl in Hmk. by rewrite (main_makedirs_failure _ _ _ _ _ _ _ w e Hdir E), Hmk. }
  destruct (main_after_listing open_html md open_w lower askdirectory makedirs
              listdir names w Hdir E Hls) as (w0 & w1 & _ & _ & ->).
  done.
Qed.

Lemma main_never_raises_witness :
  listdir_as listing (py "notes") = inr listing
  /\ from_option is_OSError true
       (makedirs_denied (path_join (py "notes") (py "converted files"))) = true
  /\ fst (main open_missing md_fails write_denied ascii_lower (py "notes")
            makedirs_denied (listdir_as listing) empty_world)
     = inr tt.
Proof.
  split; [reflexivity|]. split; [reflexivity|].
  apply (main_never_raises open_missing md_fails write_denied ascii_lower (py "notes")
           makedirs_denied (listdir_as listing) listing empty_world); reflexivity.
Defined.

(** ** File names *)

Lemma take_until_stop (p : char -> bool) (a b : pystr) (c : char) :
  forallb (fun x => negb (p x)) a = true -> p c = true ->
  take_until p (a ++ c :: b) = a.
Proof.
  intros Ha Hc. induction a as [|x a IH]; simpl.
  - by rewrite Hc.
  - simpl in Ha. apply andb_true_iff in Ha as [Hx Ha].
    apply negb_true_iff in Hx. rewrite Hx. f_equal. by apply IH.
Qed.

Lemma take_until_all (p : char -> bool) (a : pystr) :
  forallb (fun x => negb (p x)) a = true -> take_until p a = a.
Proof.
  induction a as [|x a IH]; simpl; [done|].
  intros [Hx Ha]%andb_true_iff. apply negb_true_iff in Hx. rewrite Hx.
  f_equal. by apply IH.
Qed.

Lemma forallb_reverse (f : N -> bool) (s : list N) :
  forallb f (reverse s) = forallb f s.
Proof.
  induction s as [|a s IH]; [done|].
  rewrite reverse_cons, forallb_app, IH. simpl.
  rewrite andb_true_r. apply andb_comm.
Qed.

Lemma basename_sep_free (b : pystr) : sep_free b = true -> basename b = b.
Proof.
  intros H. unfold basename. rewrite take_until_all, reverse_involutive; [done|].
  by rewrite forallb_reverse.
Qed.

Lemma basename_after_sep (x b : pystr) :
  sep_free b = true -> basename (x ++ [sep] ++ b) = b.
Proof.
  intros H. unfold basename. rewrite !reverse_app. simpl.
  rewrite <- app_assoc. change (reverse [sep] ++ reverse x) with (sep :: reverse x).
  rewrite take_until_stop, reverse_involutive; [done| |apply N.eqb_refl].
  by rewrite forallb_reverse.
Qed.

Lemma endswith_sep (a : pystr) : endswith [sep] a = true -> exists a', a = a' ++ [sep].
Proof.
  unfold endswith. change (reverse [sep]) with [sep].
  destruct (reverse a) as [|c r] eqn:E; [done|]. cbn [startswith].
  intros [Hc _]%andb_true_iff. apply N.eqb_eq in Hc. subst c.
  exists (reverse r). rewrite <- (reverse_involutive a), E.
  by rewrite reverse_cons.
Qed.

Lemma basename_path_join (a b : pystr) :
  sep_free b = true -> basename (path_join a b) = b.
Proof.
  intros Hb. unfold path_join.
  destruct (startswith [sep] b) eqn:E1; [by apply basename_sep_free|].
  destruct (bool_decide (a = [])) eqn:E2; simpl.
  { apply bool_decide_eq_true in E2. subst a. by apply basename_sep_free. }
  destruct (endswith [sep] a) eqn:E3.
  - apply endswith_sep in E3 as [a' ->]. rewrite <- app_assoc.
    by apply basename_after_sep.
  - by apply basename_after_sep.
Qed.

Lemma md_filename_sep_free (title : pystr) :
  sep_free (sanitize_filename title ++ py ".md") = true.
Proof.
  unfold sep_free. rewrite forallb_app. apply andb_true_iff. split; [|reflexivity].
  apply forallb_forall. intros c Hc%list_elem_of_In.
  destruct (sanitize_filename_safe title) as (Hclean & _ & _).
  destruct (Hclean c Hc) as [Hbad _].
  apply negb_true_iff. destruct (N.eqb_spec c sep) as [->|]; [|done].
  exfalso. apply Hbad. by apply is_invalid_spec.
Qed.

(** The Markdown file is named by the sanitised title: the last component
    of the output path is [sanitize_filename(title) + ".md"], whatever the
    output directory. *)
Theorem output_path_basename (output_dir_path html_filepath : pystr) (soup : node) :
  basename (output_path output_dir_path html_filepath soup)
  = sanitize_filename (extract_title soup (basename html_filepath)) ++ py ".md".
Proof. unfold output_path. apply basename_path_join, md_filename_sep_free. Qed.

Lemma splitext_html (stem : pystr) :
  sep_free stem = true -> forallb is_dot stem = false ->
  splitext (stem ++ py ".html") = (stem, py ".html").
Proof.
  intros Hsep Hdots. unfold splitext.
  assert (Hname : basename (stem ++ py ".html") = stem ++ py ".html").
  { apply basename_sep_free. unfold sep_free in *. by rewrite forallb_app, Hsep. }
  rewrite Hname. cbv zeta.
  assert (Hext : reverse (take_until is_dot (reverse (stem ++ py ".html"))) = py "html").
  { rewrite reverse_app.
    change (reverse (py ".html")) with (py "lmth" ++ chr "." :: []).
    rewrite <- app_assoc. cbn [app].
    by rewrite take_until_stop. }
  rewrite Hext, Nat.sub_diag, take_0.
  replace (length (stem ++ py ".html") - length (py "html") - 1) with (length stem).
  2:{ rewrite length_app. change (length (py ".html")) with 5.
      change (length (py "html")) with 4. lia. }
  rewrite take_app_length, drop_app_length, Hdots.
  rewrite existsb_app. change (existsb is_dot (py ".html")) with true.
  by rewrite orb_true_r.
Qed.

(** Without a title container, a source file [stem.html] gives the title
    [stem], for every stem that holds no separator and is not made of dots
    only. *)
Theorem extract_title_from_filename (soup : node) (stem : pystr) :
  find_div (py "title") soup = None ->
  sep_free stem = true -> forallb is_dot stem = false ->
  extract_title soup (stem ++ py ".html") = stem.
Proof.
  intros Hdiv Hsep Hdots. unfold extract_title. rewrite Hdiv.
  rewrite (splitext_html stem Hsep Hdots). cbn [fst].
  rewrite bool_decide_false; [done|]. intros ->. done.
Qed.

Lemma extract_title_from_filename_witness :
  find_div (py "title") (note [] [shopping_content]) = None
  /\ sep_free (py "2024.01 plans") = true
  /\ forallb is_dot (py "2024.01 plans") = false
  /\ extract_title (note [] [shopping_content]) (py "2024.01 plans" ++ py ".html")
     = py "2024.01 plans".
Proof.
  split; [reflexivity|]. split; [reflexivity|]. split; [reflexivity|].
  apply (extract_title_from_filename (note [] [shopping_content]) (py "2024.01 plans"));
    reflexivity.
Defined.
